(** * SEO Analyzer content script: scoring engine

    A shallow embedding of [content.js] (the signal extractors, the nine
    scorers, the aggregator [analyzeSeo] and the summary synthesizer
    [buildSummary]) together with the properties its specification states.

    Conventions of the embedding:
    - a JavaScript string is the list of its UTF-16 code units, so that
      [.length] is the length of the list;
    - a JavaScript number that holds a count, a length or a score is a [Z];
      where the script divides ([withAlt / total]) the value is a binary64
      double, modelled by the exact rational it denotes, every operation
      being followed by the IEEE rounding [fl];
    - the strings ['good'], ['warn'], ['bad'] are the enumeration [Status];
    - an exception is an explicit [Throw] completion. *)

From Stdlib Require Import ZArith NArith QArith Qround Bool List String Ascii.
From Stdlib Require Import DecimalString Lia.
From Stdlib Require Import Floats Uint63.
Import ListNotations.

Open Scope Z_scope.

(** ** JavaScript strings *)

Definition codeUnit := N.
Definition jsstring := list codeUnit.

(** An ASCII literal of the source as code units. *)
Definition lit (s : string) : jsstring :=
  map N_of_ascii (list_ascii_of_string s).

(** [s.length] *)
Definition strLength (s : jsstring) : Z := Z.of_nat (List.length s).

(** [!s] for a string: only the empty string is falsy. *)
Definition isEmpty (s : jsstring) : bool :=
  match s with
  | [] => true
  | _ :: _ => false
  end.

(** [`${n}`] for an integer below 10^21: its decimal digits, with a sign. *)
Definition numberToString (n : Z) : jsstring :=
  lit (NilZero.string_of_int (Z.to_int n)).

(** The class [\s] of a regular expression, which is also what [trim]
    strips: WhiteSpace and LineTerminator of ECMA-262. *)
Definition isSpace (c : codeUnit) : bool :=
  ((9 <=? c) && (c <=? 13) ||
   (c =? 32) || (c =? 160) || (c =? 5760) ||
   (8192 <=? c) && (c <=? 8202) ||
   (c =? 8232) || (c =? 8233) || (c =? 8239) || (c =? 8287) ||
   (c =? 12288) || (c =? 65279))%N.

(** [s.replace(/\s+/g, ' ')]: [inRun] tells that the unit before was
    white space, already replaced. *)
Fixpoint collapseSpaces (inRun : bool) (s : jsstring) : jsstring :=
  match s with
  | [] => []
  | c :: r =>
      if isSpace c
      then (if inRun then collapseSpaces true r
            else 32%N :: collapseSpaces true r)
      else c :: collapseSpaces false r
  end.

Fixpoint trimStart (s : jsstring) : jsstring :=
  match s with
  | [] => []
  | c :: r => if isSpace c then trimStart r else s
  end.

Definition trimEnd (s : jsstring) : jsstring := rev (trimStart (rev s)).

Definition trim (s : jsstring) : jsstring := trimEnd (trimStart s).

(** [function normalizeSpace(text)]; the argument is [null] when an
    attribute is missing. *)
Definition orEmpty (text : option jsstring) : jsstring :=
  match text with
  | Some s => s
  | None => []
  end.

Definition normalizeSpace (text : option jsstring) : jsstring :=
  trim (collapseSpaces false (orEmpty text)).

(** [s.startsWith(pre)] *)
Fixpoint startsWith (s pre : jsstring) {struct pre} : bool :=
  match pre with
  | [] => true
  | p :: pre' =>
      match s with
      | [] => false
      | c :: s' => (c =? p)%N && startsWith s' pre'
      end
  end.

(** [s.includes(pat)] *)
Fixpoint includes (s pat : jsstring) : bool :=
  startsWith s pat ||
  match s with
  | [] => false
  | _ :: s' => includes s' pat
  end.

(** [s.toLowerCase()], unit by unit.  The letters A-Z go to a-z; U+0130
    becomes the two units i, U+0307; U+212A (KELVIN SIGN) becomes k.  These
    are the only units whose lower case contains an ASCII unit.  Every other
    case pair of Unicode relates units above 127 to units above 127; those
    units are left in place here. *)
Definition lowerUnit (c : codeUnit) : jsstring :=
  if ((65 <=? c) && (c <=? 90))%N then [(c + 32)%N]
  else if (c =? 304)%N then [105%N; 775%N]
  else if (c =? 8490)%N then [107%N]
  else [c].

Definition toLowerCase (s : jsstring) : jsstring := flat_map lowerUnit s.

(** A unit [c] of the subject against the lower-case ASCII letter [p] of a
    pattern under the flag [i] (no flag [u]): Canonicalize never sends a unit
    above 127 to one below 128, so only [p] and its capital match. *)
Definition matchesIgnoreCase (p c : codeUnit) : bool :=
  ((c =? p) || (c =? p - 32))%N.

(** [/^https?:\/\//i.test(href)] *)
Definition testHttpPrefix (href : jsstring) : bool :=
  match href with
  | h :: t1 :: t2 :: p :: rest =>
      matchesIgnoreCase 104%N h && matchesIgnoreCase 116%N t1 &&
      matchesIgnoreCase 116%N t2 && matchesIgnoreCase 112%N p &&
      (match rest with
       | s :: rest' =>
           (matchesIgnoreCase 115%N s && startsWith rest' (lit "://"))
           || startsWith rest (lit "://")
       | [] => false
       end)
  | _ => false
  end.

(** [arr.join(sep)] for an array of strings. *)
Fixpoint join (sep : jsstring) (l : list jsstring) : jsstring :=
  match l with
  | [] => []
  | [x] => x
  | x :: r => x ++ sep ++ join sep r
  end.

(** ** Numbers *)

(** [function clamp(n, min, max)] *)
Definition clamp (n min max : Z) : Z := Z.max min (Z.min max n).

(** ** Doubles

    A finite double is the rational it denotes.  [fl] is the rounding of
    binary64 in its normal range (53 significant bits, round to nearest,
    ties to even); the quotients and products formed below lie between
    2^-32 and 100, far from the subnormal and the overflow thresholds, so no
    exponent bound is needed.  An integer below 2^53 is a double as it is. *)

Definition double := Q.

(** [n / d] rounded to the nearest integer, ties to even ([d > 0]). *)
Definition roundNearestEven (n d : Z) : Z :=
  let q := n / d in
  let r := n mod d in
  if 2 * r <? d then q
  else if d <? 2 * r then q + 1
  else if Z.even q then q else q + 1.

(** The integer [E] with [2^E <= n/d < 2^(E+1)] ([n, d > 0]). *)
Definition binaryExponent (n d : Z) : Z :=
  let k := Z.log2 n - Z.log2 d in
  if (if 0 <=? k then d * 2 ^ k <=? n else d <=? n * 2 ^ (- k))
  then k else k - 1.

(** [n/d > 0] rounded to 53 significant bits. *)
Definition roundPositive (n d : Z) : double :=
  let e := binaryExponent n d - 52 in
  if 0 <=? e
  then inject_Z (roundNearestEven n (d * 2 ^ e) * 2 ^ e)
  else roundNearestEven (n * 2 ^ (- e)) d # Z.to_pos (2 ^ (- e)).

Definition fl (q : Q) : double :=
  match Qnum q with
  | 0 => 0%Q
  | Z.pos n => roundPositive (Z.pos n) (Z.pos (Qden q))
  | Z.neg n => Qopp (roundPositive (Z.pos n) (Z.pos (Qden q)))
  end.

(** [x / y] and [x * y] on doubles, a decimal literal [n/d] of the source,
    and [x >= y]. *)
Definition jsDiv (x y : double) : double := fl (x / y).
Definition jsMul (x y : double) : double := fl (x * y).
Definition jsLiteral (n : Z) (d : positive) : double := fl (n # d).
Definition jsGe (x y : double) : bool := Qle_bool y x.

(** [Math.round(x)]: the nearest integer, a tie going up. *)
Definition Math_round (x : double) : Z := Qfloor (x + (1 # 2)).

(** The rational a finite value of the Standard Library's IEEE 754 model
    denotes; used to compare [fl] with the hardware doubles of the kernel. *)
Definition SF2Q (x : spec_float) : Q :=
  match x with
  | S754_finite s m e =>
      let z := if s then Z.neg m else Z.pos m in
      if 0 <=? e then inject_Z (z * 2 ^ e) else z # Z.to_pos (2 ^ (- e))
  | _ => 0%Q
  end.

(** ** The scoring unit *)

Inductive Status := good | warn | bad.

Definition Status_eqb (a b : Status) : bool :=
  match a, b with
  | good, good | warn, warn | bad, bad => true
  | _, _ => false
  end.

Record SignalResult := mkResult {
  points : Z;
  status : Status;
  badge : jsstring;
  detail : jsstring
}.

(** ** Scorers *)

(** [function scoreTitle(title)] *)
Definition scoreTitle (title : jsstring) : SignalResult :=
  let len := strLength title in
  if isEmpty title then
    {| points := 0; status := bad; badge := lit "Missing";
       detail := lit "No <title> found." |}
  else if (10 <=? len) && (len <=? 60) then
    {| points := 20; status := good;
       badge := numberToString len ++ lit " chars";
       detail := lit "Present and within recommended length (" ++
                 numberToString len ++ lit " chars)." |}
  else
    let status := if len <? 10 then warn else warn in
    let badge := numberToString len ++ lit " chars" in
    let detail :=
      if len <? 10
      then lit "Present but very short (" ++ numberToString len ++
           lit " chars)."
      else lit "Present but long (" ++ numberToString len ++ lit " chars)." in
    {| points := 12; status := status; badge := badge; detail := detail |}.

(** [function scoreMetaDescription(description)] *)
Definition scoreMetaDescription (description : jsstring) : SignalResult :=
  let len := strLength description in
  if isEmpty description then
    {| points := 0; status := bad; badge := lit "Missing";
       detail := lit "No meta description found." |}
  else if (50 <=? len) && (len <=? 160) then
    {| points := 20; status := good;
       badge := numberToString len ++ lit " chars";
       detail := lit "Present and within recommended length (" ++
                 numberToString len ++ lit " chars)." |}
  else
    let detail :=
      if len <? 50
      then lit "Present but short (" ++ numberToString len ++ lit " chars)."
      else lit "Present but long (" ++ numberToString len ++ lit " chars)." in
    {| points := 12; status := warn;
       badge := numberToString len ++ lit " chars"; detail := detail |}.

(** [function scoreMetaKeywords(keywords)] *)
Definition scoreMetaKeywords (keywords : jsstring) : SignalResult :=
  if isEmpty keywords then
    {| points := 0; status := warn; badge := lit "Not set";
       detail := lit "Meta keywords are optional and often ignored." |}
  else
    let len := strLength keywords in
    {| points := 3; status := good; badge := lit "Present";
       detail := lit "Present (" ++ numberToString len ++
                 lit " chars). Note: often ignored by search engines." |}.

(** The object built by [getHeadingsCount]: the keys [h1] .. [h6], in the
    order they are created. *)
Record HeadingCounts := mkHeadings {
  h1 : Z; h2 : Z; h3 : Z; h4 : Z; h5 : Z; h6 : Z
}.

(** [Object.values(counts)] *)
Definition Object_values (counts : HeadingCounts) : list Z :=
  [h1 counts; h2 counts; h3 counts; h4 counts; h5 counts; h6 counts].

(** [x || 0] on a number. *)
Definition orZero (x : Z) : Z := if x =? 0 then 0 else x.

(** [function scoreHeadings(counts)]; [×] is U+00D7 and the dash of
    [H1–H6] is U+2013. *)
Definition scoreHeadings (counts : HeadingCounts) : SignalResult :=
  let h1 := orZero (h1 counts) in
  let total := fold_left (fun a b => a + b) (Object_values counts) 0 in
  if total =? 0 then
    {| points := 0; status := bad; badge := lit "None";
       detail := lit "No headings found (H1" ++ [8211%N] ++ lit "H6)." |}
  else if h1 =? 1 then
    {| points := 15; status := good;
       badge := lit "H1" ++ [215%N] ++ numberToString h1;
       detail := lit "Headings present. H1 count is ideal (1). Total headings: "
                 ++ numberToString total ++ lit "." |}
  else if h1 =? 0 then
    {| points := 7; status := warn; badge := lit "No H1";
       detail := lit "Headings found but missing H1. Total headings: " ++
                 numberToString total ++ lit "." |}
  else
    {| points := 7; status := warn;
       badge := lit "H1" ++ [215%N] ++ numberToString h1;
       detail := lit "Multiple H1s found (" ++ numberToString h1 ++
                 lit "). Total headings: " ++ numberToString total ++
                 lit "." |}.

(** The object returned by [getImageAltStats]. *)
Record ImageStats := mkImages {
  total : Z;
  withAlt : Z;
  withoutAlt : Z
}.

(** [function scoreImages(images)] *)
Definition scoreImages (images : ImageStats) : SignalResult :=
  let total := total images in
  let withAlt := withAlt images in
  let withoutAlt := withoutAlt images in
  if total =? 0 then
    {| points := 6; status := warn; badge := lit "No images";
       detail := lit "No images detected on the page." |}
  else
    let ratio := jsDiv (inject_Z withAlt) (inject_Z total) in
    let pct := Math_round (jsMul ratio (inject_Z 100)) in
    if jsGe ratio (jsLiteral 9 10) then
      {| points := 10; status := good;
         badge := numberToString pct ++ lit "%";
         detail := numberToString withAlt ++ lit "/" ++
                   numberToString total ++ lit " images have alt text (" ++
                   numberToString pct ++ lit "%)." |}
    else if jsGe ratio (jsLiteral 6 10) then
      {| points := 6; status := warn;
         badge := numberToString pct ++ lit "%";
         detail := numberToString withAlt ++ lit "/" ++
                   numberToString total ++ lit " images have alt text (" ++
                   numberToString pct ++ lit "%). " ++
                   numberToString withoutAlt ++ lit " missing." |}
    else
      {| points := 2; status := bad;
         badge := numberToString pct ++ lit "%";
         detail := numberToString withAlt ++ lit "/" ++
                   numberToString total ++ lit " images have alt text (" ++
                   numberToString pct ++ lit "%). " ++
                   numberToString withoutAlt ++ lit " missing." |}.

(** [function scoreCanonical(href)] *)
Definition scoreCanonical (href : jsstring) : SignalResult :=
  if isEmpty href then
    {| points := 0; status := warn; badge := lit "Missing";
       detail := lit "No canonical link tag found." |}
  else
    let looksLikeUrl := testHttpPrefix href || startsWith href (lit "/") in
    if negb looksLikeUrl then
      {| points := 3; status := warn; badge := lit "Present";
         detail := lit "Canonical present but looks unusual: " ++ href |}
    else
      {| points := 5; status := good; badge := lit "Present";
         detail := lit "Canonical present: " ++ href |}.

(** [function scoreRobots(robots)]; the detail quotes the directive
    between two double quotes (unit 34). *)
Definition scoreRobots (robots : jsstring) : SignalResult :=
  if isEmpty robots then
    {| points := 6; status := good; badge := lit "Not set";
       detail := lit "No robots meta tag found (often fine)." |}
  else
    let value := toLowerCase robots in
    let blocksIndexing :=
      includes value (lit "noindex") || includes value (lit "nofollow") in
    if blocksIndexing then
      {| points := 0; status := bad; badge := lit "Blocking";
         detail := lit "Robots meta may prevent indexing: " ++ [34%N] ++
                   robots ++ [34%N] |}
    else
      {| points := 6; status := good; badge := lit "OK";
         detail := lit "Robots meta: " ++ [34%N] ++ robots ++ [34%N] |}.

(** The object returned by [getJsonLdBlocks]. *)
Record JsonLdStats := mkJsonLd {
  count : Z;
  parsedCount : Z;
  parseErrors : Z
}.

(** [function scoreStructuredData(jsonld)] *)
Definition scoreStructuredData (jsonld : JsonLdStats) : SignalResult :=
  let count := count jsonld in
  let parsedCount := parsedCount jsonld in
  let parseErrors := parseErrors jsonld in
  if count =? 0 then
    {| points := 0; status := warn; badge := lit "None";
       detail := lit "No JSON-LD structured data found." |}
  else if (0 <? parsedCount) && (parseErrors =? 0) then
    {| points := 10; status := good;
       badge := numberToString parsedCount ++ lit " block" ++
                (if parsedCount =? 1 then [] else lit "s");
       detail := lit "Found " ++ numberToString count ++
                 lit " JSON-LD script tag(s); " ++
                 numberToString parsedCount ++
                 lit " parsed successfully." |}
  else
    {| points := 5; status := warn; badge := lit "Partial";
       detail := lit "Found " ++ numberToString count ++
                 lit " JSON-LD script tag(s); " ++
                 numberToString parsedCount ++ lit " parsed; " ++
                 numberToString parseErrors ++ lit " parse error(s)." |}.

(** [function scoreWordCount(words)] *)
Definition scoreWordCount (words : Z) : SignalResult :=
  if words =? 0 then
    {| points := 0; status := bad; badge := lit "0";
       detail := lit "No body text detected." |}
  else if 300 <=? words then
    {| points := 10; status := good; badge := numberToString words;
       detail := lit "Good amount of content (" ++ numberToString words ++
                 lit " words)." |}
  else if 150 <=? words then
    {| points := 6; status := warn; badge := numberToString words;
       detail := lit "Some content (" ++ numberToString words ++
                 lit " words); consider adding more." |}
  else
    {| points := 2; status := warn; badge := numberToString words;
       detail := lit "Thin content (" ++ numberToString words ++
                 lit " words)." |}.

(** ** Summary *)

(** [payload.items] *)
Record Items := mkItems {
  items_title : SignalResult;
  items_metaDescription : SignalResult;
  items_metaKeywords : SignalResult;
  items_headings : SignalResult;
  items_images : SignalResult;
  items_canonical : SignalResult;
  items_robots : SignalResult;
  items_structuredData : SignalResult;
  items_wordCount : SignalResult
}.

(** The closure [push] of [buildSummary]: the array after the call. *)
Definition push (arr : list jsstring) (label : jsstring) (status : Status)
  : list jsstring :=
  if Status_eqb status good then arr ++ [label] else arr.

(** [function buildSummary(items, totalScore)]: the arrays [positives],
    [issues] and [parts] are threaded through the statements in order. *)
Definition buildSummary (items : Items) (totalScore : Z) : jsstring :=
  let positives := [] in
  let issues := [] in
  let positives := push positives (lit "title") (status (items_title items)) in
  let positives :=
    push positives (lit "meta description")
         (status (items_metaDescription items)) in
  let positives :=
    push positives (lit "canonical") (status (items_canonical items)) in
  let positives :=
    push positives (lit "structured data")
         (status (items_structuredData items)) in
  let issues :=
    if negb (Status_eqb (status (items_headings items)) good)
    then issues ++ [lit "headings"] else issues in
  let issues :=
    if negb (Status_eqb (status (items_images items)) good)
    then issues ++ [lit "image alts"] else issues in
  let issues :=
    if Status_eqb (status (items_robots items)) bad
    then issues ++ [lit "robots (noindex/nofollow)"] else issues in
  let issues :=
    if negb (Status_eqb (status (items_wordCount items)) good)
    then issues ++ [lit "content length"] else issues in
  let parts := [] in
  let parts :=
    parts ++ [lit "SEO score: " ++ numberToString totalScore ++ lit "/100."] in
  let parts :=
    if negb (List.length positives =? 0)%nat
    then parts ++ [lit "Strong: " ++ join (lit ", ") positives ++ lit "."]
    else parts in
  let parts :=
    if negb (List.length issues =? 0)%nat
    then parts ++ [lit "Check: " ++ join (lit ", ") issues ++ lit "."]
    else parts in
  join (lit " ") parts.

(** ** Completions

    A call either returns or throws; [tryCatch] is the statement
    [try { .. } catch { .. }] and [forOf] the loop [for (const x of xs)]
    over the loop's variables [S]. *)

Inductive completion (E A : Type) :=
| Normal (a : A)
| Throw (e : E).

Arguments Normal {E A} a.
Arguments Throw {E A} e.

Definition bind {E A B} (c : completion E A) (k : A -> completion E B)
  : completion E B :=
  match c with
  | Normal a => k a
  | Throw e => Throw e
  end.

Notation "x <- c ;; k" := (bind c (fun x => k))
  (at level 61, c at next level, right associativity).

Definition tryCatch {E A} (body : completion E A) (handler : E -> completion E A)
  : completion E A :=
  match body with
  | Normal a => Normal a
  | Throw e => handler e
  end.

Fixpoint forOf {E S X} (xs : list X) (body : X -> S -> completion E S) (st : S)
  : completion E S :=
  match xs with
  | [] => Normal st
  | x :: r => st' <- body x st ;; forOf r body st'
  end.

(** ** The document

    The extractors read the page through a few queries; the handle holds
    their answers.  An element is its attributes and its text content. *)

Record Element := mkElement {
  attributes : list (jsstring * jsstring);
  textContent : jsstring
}.

Fixpoint strEqb (a b : jsstring) : bool :=
  match a, b with
  | [], [] => true
  | x :: a', y :: b' => (x =? y)%N && strEqb a' b'
  | _, _ => false
  end.

(** [el.getAttribute(name)]: [null] when the attribute is missing. *)
Definition getAttribute (el : Element) (name : jsstring) : option jsstring :=
  match find (fun kv => strEqb (fst kv) name) (attributes el) with
  | Some kv => Some (snd kv)
  | None => None
  end.

(** [el?.getAttribute(name)] *)
Definition getAttributeOpt (el : option Element) (name : jsstring)
  : option jsstring :=
  match el with
  | Some e => getAttribute e name
  | None => None
  end.

Record Document := mkDocument {
  (** [document.title] *)
  document_title : jsstring;
  (** [document.querySelector(`meta[name="N"]`)] *)
  queryMeta : jsstring -> option Element;
  (** [document.querySelector('link[rel="canonical"]')] *)
  queryCanonical : option Element;
  (** [document.querySelectorAll('script[type="application/ld+json"]')] *)
  queryJsonLd : list Element;
  (** [document.querySelectorAll(`h${level}`)] *)
  queryHeadings : Z -> list Element;
  (** [document.images] *)
  document_images : list Element;
  (** the text content of a copy of [document.body] without its script,
      style, noscript, template and svg elements; [None] without a body *)
  bodyText : option jsstring;
  (** [location.href] and [Date.now()] *)
  location_href : jsstring;
  Date_now : Z
}.

(** [payload.raw] *)
Record Raw := mkRaw {
  raw_title : jsstring;
  raw_metaDescription : jsstring;
  raw_metaKeywords : jsstring;
  raw_headings : HeadingCounts;
  raw_images : ImageStats;
  raw_canonical : jsstring;
  raw_robots : jsstring;
  raw_jsonld : JsonLdStats;
  raw_wordCount : Z
}.

(** The object returned by [analyzeSeo]. *)
Record Payload := mkPayload {
  generatedAt : Z;
  page_url : jsstring;
  score_total : Z;
  raw : Raw;
  items : Items;
  summary : jsstring
}.

(** The code points of a string, as a regular expression with the flag [u]
    reads it: a high surrogate followed by a low one is one code point. *)
Fixpoint codePoints (s : jsstring) : list N :=
  match s with
  | [] => []
  | hi :: t =>
      match t with
      | lo :: r =>
          if ((55296 <=? hi) && (hi <=? 56319) &&
              (56320 <=? lo) && (lo <=? 57343))%N
          then (65536 + (hi - 55296) * 1024 + (lo - 56320))%N :: codePoints r
          else hi :: codePoints t
      | [] => [hi]
      end
  end.

(** The number of maximal runs of elements that satisfy [p]. *)
Fixpoint countRuns {A} (p : A -> bool) (inRun : bool) (l : list A) : Z :=
  match l with
  | [] => 0
  | c :: r =>
      if p c then (if inRun then 0 else 1) + countRuns p true r
      else countRuns p false r
  end.

(** ** Extractors and the aggregator *)

Section Analyzer.

(** [JSON.parse]: the value, or the exception it throws. *)
Variable JsonValue : Type.
Variable Exn : Type.
Variable JSON_parse : jsstring -> completion Exn JsonValue.

(** Whether a code point is in [\p{L}] or [\p{N}]. *)
Variable isLetterOrNumber : N -> bool.

(** [function getMetaContentByName(name)] *)
Definition getMetaContentByName (doc : Document) (name : jsstring)
  : jsstring :=
  let el := queryMeta doc name in
  normalizeSpace (Some (orEmpty (getAttributeOpt el (lit "content")))).

(** [function getCanonicalHref()] *)
Definition getCanonicalHref (doc : Document) : jsstring :=
  let el := queryCanonical doc in
  normalizeSpace (Some (orEmpty (getAttributeOpt el (lit "href")))).

(** The body of the loop of [getJsonLdBlocks] on the variables
    [parsed] and [parseErrors]. *)
Definition jsonLdStep (node : Element) (st : list JsonValue * Z)
  : completion Exn (list JsonValue * Z) :=
  let '(parsed, parseErrors) := st in
  let raw := normalizeSpace (Some (textContent node)) in
  if isEmpty raw then Normal (parsed, parseErrors)
  else
    tryCatch
      (value <- JSON_parse raw ;;
       Normal (parsed ++ [value], parseErrors))
      (fun _ => Normal (parsed, parseErrors + 1)).

(** [function getJsonLdBlocks()] *)
Definition getJsonLdBlocks (doc : Document) : completion Exn JsonLdStats :=
  let nodes := queryJsonLd doc in
  st <- forOf nodes jsonLdStep ([], 0) ;;
  let '(parsed, parseErrors) := st in
  Normal {| count := Z.of_nat (List.length nodes);
            parsedCount := Z.of_nat (List.length parsed);
            parseErrors := parseErrors |}.

(** [function getHeadingsCount()] *)
Definition getHeadingsCount (doc : Document) : HeadingCounts :=
  let len level := Z.of_nat (List.length (queryHeadings doc level)) in
  {| h1 := len 1; h2 := len 2; h3 := len 3;
     h4 := len 4; h5 := len 5; h6 := len 6 |}.

(** [function getImageAltStats()] *)
Definition getImageAltStats (doc : Document) : ImageStats :=
  let imgs := document_images doc in
  let relevant :=
    filter (fun img =>
              let src :=
                normalizeSpace
                  (Some (orEmpty (getAttribute img (lit "src")))) in
              negb (isEmpty src)) imgs in
  let total := Z.of_nat (List.length relevant) in
  let withAlt :=
    Z.of_nat (List.length
      (filter (fun img =>
                 0 <? strLength
                        (normalizeSpace
                           (Some (orEmpty (getAttribute img (lit "alt"))))))
              relevant)) in
  let withoutAlt := total - withAlt in
  {| total := total; withAlt := withAlt; withoutAlt := withoutAlt |}.

(** [function getWordCount()] *)
Definition getWordCount (doc : Document) : Z :=
  match bodyText doc with
  | None => 0
  | Some content =>
      let text := normalizeSpace (Some content) in
      if isEmpty text then 0
      else countRuns isLetterOrNumber false (codePoints text)
  end.

(** The sum that [analyzeSeo] clamps. *)
Definition pointsSum (it : Items) : Z :=
  points (items_title it) +
  points (items_metaDescription it) +
  points (items_metaKeywords it) +
  points (items_headings it) +
  points (items_images it) +
  points (items_canonical it) +
  points (items_robots it) +
  points (items_structuredData it) +
  points (items_wordCount it).

(** [function analyzeSeo()] *)
Definition analyzeSeo (doc : Document) : completion Exn Payload :=
  let titleText := normalizeSpace (Some (document_title doc)) in
  let title := scoreTitle titleText in
  let metaDescriptionText := getMetaContentByName doc (lit "description") in
  let metaDescription := scoreMetaDescription metaDescriptionText in
  let metaKeywordsText := getMetaContentByName doc (lit "keywords") in
  let metaKeywords := scoreMetaKeywords metaKeywordsText in
  let headingCounts := getHeadingsCount doc in
  let headings := scoreHeadings headingCounts in
  let imageStats := getImageAltStats doc in
  let images := scoreImages imageStats in
  let canonicalHref := getCanonicalHref doc in
  let canonical := scoreCanonical canonicalHref in
  let robotsText := getMetaContentByName doc (lit "robots") in
  let robots := scoreRobots robotsText in
  jsonld <- getJsonLdBlocks doc ;;
  let structuredData := scoreStructuredData jsonld in
  let words := getWordCount doc in
  let wordCount := scoreWordCount words in
  let total :=
    clamp (points title +
           points metaDescription +
           points metaKeywords +
           points headings +
           points images +
           points canonical +
           points robots +
           points structuredData +
           points wordCount) 0 100 in
  let payload_items :=
    {| items_title := title;
       items_metaDescription := metaDescription;
       items_metaKeywords := metaKeywords;
       items_headings :=
         {| points := points headings;
            status := status headings;
            badge := badge headings;
            detail :=
              detail headings ++ lit " (H1:" ++
              numberToString (h1 headingCounts) ++ lit ", H2:" ++
              numberToString (h2 headingCounts) ++ lit ", H3:" ++
              numberToString (h3 headingCounts) ++ lit ", H4:" ++
              numberToString (h4 headingCounts) ++ lit ", H5:" ++
              numberToString (h5 headingCounts) ++ lit ", H6:" ++
              numberToString (h6 headingCounts) ++ lit ")" |};
       items_images := images;
       items_canonical := canonical;
       items_robots := robots;
       items_structuredData := structuredData;
       items_wordCount := wordCount |} in
  Normal
    {| generatedAt := Date_now doc;
       page_url := location_href doc;
       score_total := total;
       raw :=
         {| raw_title := titleText;
            raw_metaDescription := metaDescriptionText;
            raw_metaKeywords := metaKeywordsText;
            raw_headings := headingCounts;
            raw_images := imageStats;
            raw_canonical := canonicalHref;
            raw_robots := robotsText;
            raw_jsonld := jsonld;
            raw_wordCount := words |};
       items := payload_items;
       summary := buildSummary payload_items total |}.

End Analyzer.

Arguments getJsonLdBlocks {JsonValue Exn} JSON_parse doc.
Arguments jsonLdStep {JsonValue Exn} JSON_parse node st.
Arguments analyzeSeo {JsonValue Exn} JSON_parse isLetterOrNumber doc.

(** ** The doubles of the kernel

    The same quotients and products on the binary64 numbers of the
    machine, to check [fl] against. *)

Definition binary64 (n : Z) : float := PrimFloat.of_uint63 (Uint63.of_Z n).

Definition hardwareRatio (a b : Z) : Q :=
  SF2Q (Prim2SF (PrimFloat.div (binary64 a) (binary64 b))).

Definition hardwarePercent (a b : Z) : Q :=
  SF2Q (Prim2SF (PrimFloat.mul (PrimFloat.div (binary64 a) (binary64 b))
                               (binary64 100))).

#[warnings="-inexact-float"]
Definition hardware_0_9 : Q := SF2Q (Prim2SF 0.9%float).

#[warnings="-inexact-float"]
Definition hardware_0_6 : Q := SF2Q (Prim2SF 0.6%float).

Definition agreesOn (a b : Z) : bool :=
  Qeq_bool (hardwareRatio a b) (jsDiv (inject_Z a) (inject_Z b)) &&
  Qeq_bool (hardwarePercent a b)
           (jsMul (jsDiv (inject_Z a) (inject_Z b)) (inject_Z 100)).

(** ** Structured-data blocks, as the specification counts them *)

(** The normalized text of a block. *)
Definition blockText (node : Element) : jsstring :=
  normalizeSpace (Some (textContent node)).

(** The blocks whose normalized text is not empty. *)
Definition nonEmptyBlocks (nodes : list Element) : list Element :=
  filter (fun node => negb (isEmpty (blockText node))) nodes.

(** Whether [JSON.parse] returns on the text of a block. *)
Definition parsesBlock {JsonValue Exn : Type}
  (JSON_parse : jsstring -> completion Exn JsonValue) (node : Element) : bool :=
  match JSON_parse (blockText node) with
  | Normal _ => true
  | Throw _ => false
  end.

(** A page with nothing on it, and the same page with the given
    structured-data script elements. *)
Definition blankDocument : Document :=
  {| document_title := [];
     queryMeta := fun _ => None;
     queryCanonical := None;
     queryJsonLd := [];
     queryHeadings := fun _ => [];
     document_images := [];
     bodyText := None;
     location_href := lit "about:blank";
     Date_now := 0 |}.

Definition withJsonLd (doc : Document) (nodes : list Element) : Document :=
  {| document_title := document_title doc;
     queryMeta := queryMeta doc;
     queryCanonical := queryCanonical doc;
     queryJsonLd := nodes;
     queryHeadings := queryHeadings doc;
     document_images := document_images doc;
     bodyText := bodyText doc;
     location_href := location_href doc;
     Date_now := Date_now doc |}.

(** A script element that holds white space only, and a parser that
    rejects every text. *)
Definition blankScript : Element :=
  {| attributes := [(lit "type", lit "application/ld+json")];
     textContent := lit "   " |}.

Definition rejectAll (text : jsstring) : completion unit unit := Throw tt.

(** The scored items of a sample page: a good title, description,
    canonical link and structured data, no robots directive, two H2 and no
    H1, half of the images without an alt text and 120 words. *)
Definition sampleItems : Items :=
  {| items_title := scoreTitle (lit "Thirty-five units make a good title");
     items_metaDescription :=
       scoreMetaDescription
         (lit "A description that is long enough to be within the range.");
     items_metaKeywords := scoreMetaKeywords [];
     items_headings := scoreHeadings (mkHeadings 0 2 0 0 0 0);
     items_images := scoreImages (mkImages 10 5 5);
     items_canonical := scoreCanonical (lit "https://example.com/");
     items_robots := scoreRobots [];
     items_structuredData := scoreStructuredData (mkJsonLd 2 2 0);
     items_wordCount := scoreWordCount 120 |}.

(** ** Vocabulary of the specification

    What the specification calls a case-insensitive prefix or substring, and
    the lists its summary clauses enumerate, stated without reference to the
    way the script computes them. *)

(** A unit with the capitals A-Z folded onto a-z. *)
Definition asciiLower (c : codeUnit) : codeUnit :=
  if ((65 <=? c) && (c <=? 90))%N then (c + 32)%N else c.

(** [s] starts with [pre], case ignored ([pre] in lower case). *)
Definition startsWithIgnoreCase (pre s : jsstring) : Prop :=
  exists a b, s = a ++ b /\ map asciiLower a = pre.

(** [s] contains [pat], case ignored ([pat] in lower case). *)
Definition containsIgnoreCase (pat s : jsstring) : Prop :=
  exists a m b, s = a ++ m ++ b /\ map asciiLower m = pat.

(** The two decision procedures the proofs compare the script with. *)
Fixpoint prefixIgnoreCase (pre s : jsstring) : bool :=
  match pre with
  | [] => true
  | p :: pre' =>
      match s with
      | [] => false
      | c :: s' => (asciiLower c =? p)%N && prefixIgnoreCase pre' s'
      end
  end.

Fixpoint includesIgnoreCase (pat s : jsstring) : bool :=
  prefixIgnoreCase pat s ||
  match s with
  | [] => false
  | _ :: s' => includesIgnoreCase pat s'
  end.

(** A pattern on which lower-casing the subject and folding A-Z agree: its
    units are ASCII, none is k (which U+212A lower-cases to) and an i is
    never its last unit (U+0130 lower-cases to i followed by U+0307). *)
Fixpoint plainPattern (pat : jsstring) : bool :=
  match pat with
  | [] => true
  | p :: r =>
      (p <? 128)%N && negb (p =? 107)%N &&
      (negb (p =? 105)%N || negb (isEmpty r)) && plainPattern r
  end.

(** The labels of a summary clause: those of the table whose flag is set,
    in the order of the table. *)
Definition selected (table : list (jsstring * bool)) : list jsstring :=
  map fst (filter snd table).

Definition strongLabels (it : Items) : list jsstring :=
  selected
    [ (lit "title", Status_eqb (status (items_title it)) good);
      (lit "meta description",
       Status_eqb (status (items_metaDescription it)) good);
      (lit "canonical", Status_eqb (status (items_canonical it)) good);
      (lit "structured data",
       Status_eqb (status (items_structuredData it)) good) ].

Definition checkLabels (it : Items) : list jsstring :=
  selected
    [ (lit "headings", negb (Status_eqb (status (items_headings it)) good));
      (lit "image alts", negb (Status_eqb (status (items_images it)) good));
      (lit "robots (noindex/nofollow)",
       Status_eqb (status (items_robots it)) bad);
      (lit "content length",
       negb (Status_eqb (status (items_wordCount it)) good)) ].

(** A clause: nothing for an empty list, else the heading, the labels
    separated by ", " and a full stop. *)
Definition clause (heading : jsstring) (labels : list jsstring)
  : list jsstring :=
  match labels with
  | [] => []
  | _ :: _ => [heading ++ join (lit ", ") labels ++ lit "."]
  end.

(** The summary as the specification words it. *)
Definition summarySpec (it : Items) (totalScore : Z) : jsstring :=
  join (lit " ")
    ([lit "SEO score: " ++ numberToString totalScore ++ lit "/100."] ++
     clause (lit "Strong: ") (strongLabels it) ++
     clause (lit "Check: ") (checkLabels it)).

(** The exact alt-coverage ratio [withAlt / total]. *)
Definition altCoverage (images : ImageStats) : Q :=
  (inject_Z (withAlt images) / inject_Z (total images))%Q.

(** The nine scorers on a tuple of extracted signals. *)
Definition scoreSignals (r : Raw) : Items :=
  {| items_title := scoreTitle (raw_title r);
     items_metaDescription := scoreMetaDescription (raw_metaDescription r);
     items_metaKeywords := scoreMetaKeywords (raw_metaKeywords r);
     items_headings := scoreHeadings (raw_headings r);
     items_images := scoreImages (raw_images r);
     items_canonical := scoreCanonical (raw_canonical r);
     items_robots := scoreRobots (raw_robots r);
     items_structuredData := scoreStructuredData (raw_jsonld r);
     items_wordCount := scoreWordCount (raw_wordCount r) |}.

(** The sum of the nine scores of a tuple of extracted signals. *)
Definition rawPoints (r : Raw) : Z := pointsSum (scoreSignals r).

(** Every score within the maximum the specification gives its signal. *)
Definition withinMaxima (it : Items) : Prop :=
  0 <= points (items_title it) <= 20 /\
  0 <= points (items_metaDescription it) <= 20 /\
  0 <= points (items_metaKeywords it) <= 3 /\
  0 <= points (items_headings it) <= 15 /\
  0 <= points (items_images it) <= 10 /\
  0 <= points (items_canonical it) <= 5 /\
  0 <= points (items_robots it) <= 6 /\
  0 <= points (items_structuredData it) <= 10 /\
  0 <= points (items_wordCount it) <= 10.

(** ** Normalized strings *)

(** No white space follows white space, and every white-space unit is the
    space U+0020; [afterSpace] tells that the unit before was white space. *)
Fixpoint spaced (afterSpace : bool) (s : jsstring) : bool :=
  match s with
  | [] => true
  | c :: r =>
      if isSpace c then negb afterSpace && (c =? 32)%N && spaced true r
      else spaced false r
  end.

Fixpoint endsWithSpace (s : jsstring) : bool :=
  match s with
  | [] => false
  | c :: r =>
      match r with
      | [] => isSpace c
      | _ :: _ => endsWithSpace r
      end
  end.

(** Single spaces between runs of other units, none at either end. *)
Definition isNormalized (s : jsstring) : bool :=
  spaced true s && negb (endsWithSpace s).

(** The units of a string that are not white space. *)
Definition inkOf (s : jsstring) : jsstring :=
  filter (fun c => negb (isSpace c)) s.

(** ** Reports *)

(** All nine statuses of a report are good. *)
Definition allGood (it : Items) : Prop :=
  status (items_title it) = good /\
  status (items_metaDescription it) = good /\
  status (items_metaKeywords it) = good /\
  status (items_headings it) = good /\
  status (items_images it) = good /\
  status (items_canonical it) = good /\
  status (items_robots it) = good /\
  status (items_structuredData it) = good /\
  status (items_wordCount it) = good.

(** Two reports agree on the score, the status and the badge of every
    signal. *)
Definition sameVerdict (a b : SignalResult) : Prop :=
  points a = points b /\ status a = status b /\ badge a = badge b.

Definition sameVerdicts (a b : Items) : Prop :=
  sameVerdict (items_title a) (items_title b) /\
  sameVerdict (items_metaDescription a) (items_metaDescription b) /\
  sameVerdict (items_metaKeywords a) (items_metaKeywords b) /\
  sameVerdict (items_headings a) (items_headings b) /\
  sameVerdict (items_images a) (items_images b) /\
  sameVerdict (items_canonical a) (items_canonical b) /\
  sameVerdict (items_robots a) (items_robots b) /\
  sameVerdict (items_structuredData a) (items_structuredData b) /\
  sameVerdict (items_wordCount a) (items_wordCount b).

(** ** Images and headings of a page *)

(** An image with a source that is not blank, and one with an alt text
    that is not blank: the two tests of [getImageAltStats]. *)
Definition usableSrc (img : Element) : bool :=
  negb (isEmpty (normalizeSpace (Some (orEmpty (getAttribute img (lit "src")))))).

Definition hasAltText (img : Element) : bool :=
  0 <? strLength (normalizeSpace (Some (orEmpty (getAttribute img (lit "alt"))))).

(** The page with other images. *)
Definition withImages (doc : Document) (imgs : list Element) : Document :=
  {| document_title := document_title doc;
     queryMeta := queryMeta doc;
     queryCanonical := queryCanonical doc;
     queryJsonLd := queryJsonLd doc;
     queryHeadings := queryHeadings doc;
     document_images := imgs;
     bodyText := bodyText doc;
     location_href := location_href doc;
     Date_now := Date_now doc |}.

(** The number of heading elements of a page, all levels taken together. *)
Definition headingElements (doc : Document) : nat :=
  (List.length (queryHeadings doc 1) + List.length (queryHeadings doc 2) +
   List.length (queryHeadings doc 3) + List.length (queryHeadings doc 4) +
   List.length (queryHeadings doc 5) + List.length (queryHeadings doc 6))%nat.

(** ** The message listener of the content script *)

(** A message as the listener reads it: its [type] when that is a string,
    [None] otherwise.  A response is what [sendResponse] is given. *)
Record Message := mkMessage {
  message_type : option jsstring
}.

Record Response := mkResponse {
  response_type : jsstring;
  response_payload : Payload
}.

(** [v !== s] for [v] a string or [undefined] and [s] a string. *)
Definition differsFrom (v : option jsstring) (s : jsstring) : bool :=
  match v with
  | Some x => negb (strEqb x s)
  | None => true
  end.

(** The listener given to [chrome.runtime.onMessage.addListener]: the
    response it sends, [None] when it returns without sending one. *)
Definition onMessage {JsonValue Exn : Type}
  (JSON_parse : jsstring -> completion Exn JsonValue)
  (isLetterOrNumber : N -> bool) (doc : Document) (message : option Message)
  : completion Exn (option Response) :=
  let type :=
    match message with
    | Some m => message_type m
    | None => None
    end in
  if differsFrom type (lit "ANALYZE_SEO") then Normal None
  else
    payload <- analyzeSeo JSON_parse isLetterOrNumber doc ;;
    Normal (Some {| response_type := lit "SEO_ANALYSIS";
                    response_payload := payload |}).

(** ** The popup ([popup.js])

    The popup is the state of the seven elements it holds: the rows under
    [RESULTS], the [hidden] flag and text of [ERROR], the texts of [SCORE],
    [PAGE_URL] and [TIMESTAMP], the content of [SUMMARY] (set as text or as
    markup) and the [disabled] flag of [REFRESH]. *)

(** A [div]: its class name, its own text and its child elements. *)
#[warnings="-register-all"]
Inductive Node :=
| Div (className : jsstring) (text : jsstring) (children : list Node).

Definition node_className (n : Node) : jsstring :=
  match n with Div c _ _ => c end.

Definition node_text (n : Node) : jsstring :=
  match n with Div _ t _ => t end.

Definition node_children (n : Node) : list Node :=
  match n with Div _ _ l => l end.

Inductive Content :=
| TextContent (s : jsstring)
| InnerHTML (markup : jsstring).

Record Popup := mkPopup {
  RESULTS_children : list Node;
  ERROR_hidden : bool;
  ERROR_textContent : jsstring;
  SCORE_textContent : jsstring;
  SUMMARY_content : Content;
  PAGE_URL_textContent : jsstring;
  REFRESH_disabled : bool;
  TIMESTAMP_textContent : jsstring
}.

Definition setRESULTS (v : list Node) (p : Popup) : Popup :=
  mkPopup v (ERROR_hidden p) (ERROR_textContent p) (SCORE_textContent p)
          (SUMMARY_content p) (PAGE_URL_textContent p) (REFRESH_disabled p)
          (TIMESTAMP_textContent p).

Definition setERROR (hidden : bool) (s : jsstring) (p : Popup) : Popup :=
  mkPopup (RESULTS_children p) hidden s (SCORE_textContent p)
          (SUMMARY_content p) (PAGE_URL_textContent p) (REFRESH_disabled p)
          (TIMESTAMP_textContent p).

Definition setSCORE (s : jsstring) (p : Popup) : Popup :=
  mkPopup (RESULTS_children p) (ERROR_hidden p) (ERROR_textContent p) s
          (SUMMARY_content p) (PAGE_URL_textContent p) (REFRESH_disabled p)
          (TIMESTAMP_textContent p).

Definition setSUMMARY (c : Content) (p : Popup) : Popup :=
  mkPopup (RESULTS_children p) (ERROR_hidden p) (ERROR_textContent p)
          (SCORE_textContent p) c (PAGE_URL_textContent p)
          (REFRESH_disabled p) (TIMESTAMP_textContent p).

Definition setPAGE_URL (s : jsstring) (p : Popup) : Popup :=
  mkPopup (RESULTS_children p) (ERROR_hidden p) (ERROR_textContent p)
          (SCORE_textContent p) (SUMMARY_content p) s (REFRESH_disabled p)
          (TIMESTAMP_textContent p).

Definition setREFRESH (disabled : bool) (p : Popup) : Popup :=
  mkPopup (RESULTS_children p) (ERROR_hidden p) (ERROR_textContent p)
          (SCORE_textContent p) (SUMMARY_content p) (PAGE_URL_textContent p)
          disabled (TIMESTAMP_textContent p).

Definition setTIMESTAMP (s : jsstring) (p : Popup) : Popup :=
  mkPopup (RESULTS_children p) (ERROR_hidden p) (ERROR_textContent p)
          (SCORE_textContent p) (SUMMARY_content p) (PAGE_URL_textContent p)
          (REFRESH_disabled p) s.

(** [RESULTS.appendChild(row)] *)
Definition appendRow (row : Node) (p : Popup) : Popup :=
  setRESULTS (RESULTS_children p ++ [row]) p.

(** [function setError(message)] *)
Definition setError (message : jsstring) (p : Popup) : Popup :=
  setERROR (isEmpty message) message p.

(** The string a status is in the report. *)
Definition statusString (s : Status) : jsstring :=
  match s with
  | good => lit "good"
  | warn => lit "warn"
  | bad => lit "bad"
  end.

(** [function badgeClass(status)] *)
Definition badgeClass (status : jsstring) : jsstring :=
  if strEqb status (lit "good") then lit "good"
  else if strEqb status (lit "warn") then lit "warn"
  else lit "bad".

(** [function createRow({ label, detail, status, badge })] *)
Definition createRow (label detail status badge : jsstring) : Node :=
  let labelEl := Div (lit "label") label [] in
  let detailEl := Div (lit "detail") detail [] in
  let left := Div (lit "left") [] [labelEl; detailEl] in
  let badgeEl := Div (lit "badge " ++ badgeClass status) badge [] in
  Div (lit "row") [] [left; badgeEl].

(** [x || fallback] for [x] a string or [undefined]. *)
Definition orElse (x : option jsstring) (fallback : jsstring) : jsstring :=
  match x with
  | Some (c :: s) => c :: s
  | _ => fallback
  end.

(** The row of one signal, as [render] builds it. *)
Definition rowOf (label : jsstring) (item : SignalResult) : Node :=
  createRow label (detail item) (statusString (status item)) (badge item).

(** [function render(analysis)]; [toLocaleTimeString] stands for
    [new Date(t).toLocaleTimeString()], and the dash of [H1–H6] is
    U+2013. *)
Definition render (toLocaleTimeString : Z -> jsstring) (analysis : Payload)
  (p : Popup) : Popup :=
  let p := setRESULTS [] p in
  let p := setError [] p in
  let p := setPAGE_URL (orElse (Some (page_url analysis))
                               (lit "(unknown URL)")) p in
  let p := setSCORE (numberToString (score_total analysis)) p in
  let p := setSUMMARY (TextContent (summary analysis)) p in
  let p := setTIMESTAMP
             (lit "Updated " ++ toLocaleTimeString (generatedAt analysis)) p in
  let items := items analysis in
  let p := appendRow (rowOf (lit "Page Title") (items_title items)) p in
  let p := appendRow (rowOf (lit "Meta Description")
                            (items_metaDescription items)) p in
  let p := appendRow (rowOf (lit "Meta Keywords (optional)")
                            (items_metaKeywords items)) p in
  let p := appendRow (rowOf (lit "Headings (H1" ++ [8211%N] ++ lit "H6)")
                            (items_headings items)) p in
  let p := appendRow (rowOf (lit "Image Alt Attributes")
                            (items_images items)) p in
  let p := appendRow (rowOf (lit "Canonical Tag") (items_canonical items)) p in
  let p := appendRow (rowOf (lit "Robots Meta Tag") (items_robots items)) p in
  let p := appendRow (rowOf (lit "Structured Data (JSON-LD)")
                            (items_structuredData items)) p in
  let p := appendRow (rowOf (lit "Word Count") (items_wordCount items)) p in
  p.

(** [function isRestrictedUrl(url)]; [url] is [undefined] when there is no
    tab or the tab has no URL. *)
Definition isRestrictedUrl (url : option jsstring) : bool :=
  match url with
  | None => true
  | Some u =>
      isEmpty u ||
      startsWith u (lit "chrome://") ||
      startsWith u (lit "chrome-extension://") ||
      startsWith u (lit "edge://") ||
      startsWith u (lit "about:")
  end.

(** *** The browser and the actions of the popup

    [analyze] runs against the browser: [chrome.tabs.query] and
    [chrome.tabs.sendMessage] each resolve to a value or reject.  An action
    changes the popup and the record of the messages sent, and completes or
    throws; what it changed before it throws stays changed. *)

Record Tab := mkTab {
  tab_id : Z;
  tab_url : option jsstring
}.

Record Browser (Exn : Type) := mkBrowser {
  tabs_query : completion Exn (list Tab);
  tabs_sendMessage : Z -> Message -> completion Exn (option Response)
}.

Arguments tabs_query {Exn} b.
Arguments tabs_sendMessage {Exn} b tabId message.

Record World := mkWorld {
  popup : Popup;
  sent : list (Z * Message)
}.

(** What a [catch] of the popup can receive: a rejection of the browser,
    an [Error] made by [new Error(message)], or the [TypeError] of reading
    a property of [undefined]. *)
Inductive Failure (Exn : Type) :=
| Rejected (e : Exn)
| ErrorObject (message : jsstring)
| TypeError.

Arguments Rejected {Exn} e.
Arguments ErrorObject {Exn} message.
Arguments TypeError {Exn}.

Definition Action (Exn A : Type) : Type :=
  World -> completion (Failure Exn) A * World.

Definition done {Exn A} (a : A) : Action Exn A := fun w => (Normal a, w).

Definition throw {Exn A} (e : Failure Exn) : Action Exn A :=
  fun w => (Throw e, w).

Definition andThen {Exn A B} (a : Action Exn A) (k : A -> Action Exn B)
  : Action Exn B :=
  fun w =>
    match a w with
    | (Normal x, w') => k x w'
    | (Throw e, w') => (Throw e, w')
    end.

Notation "x <~ a ;;; k" := (andThen a (fun x => k))
  (at level 61, a at next level, right associativity).
Notation "a ;;; k" := (andThen a (fun _ => k))
  (at level 61, right associativity).

(** An assignment to an element of the popup. *)
Definition assign {Exn} (f : Popup -> Popup) : Action Exn unit :=
  fun w => (Normal tt, mkWorld (f (popup w)) (sent w)).

(** [await p] for a promise of the browser. *)
Definition await {Exn A} (p : completion Exn A) : Action Exn A :=
  fun w =>
    match p with
    | Normal a => (Normal a, w)
    | Throw e => (Throw (Rejected e), w)
    end.

(** [try { body } catch (e) { handler }] *)
Definition tryCatchAction {Exn A} (body : Action Exn A)
  (handler : Failure Exn -> Action Exn A) : Action Exn A :=
  fun w =>
    match body w with
    | (Normal x, w') => (Normal x, w')
    | (Throw e, w') => handler e w'
    end.

(** [try { body } finally { finalizer }] *)
Definition tryFinally {Exn A} (body : Action Exn A)
  (finalizer : Action Exn unit) : Action Exn A :=
  fun w =>
    match body w with
    | (c, w') =>
        match finalizer w' with
        | (Normal _, w'') => (c, w'')
        | (Throw e, w'') => (Throw e, w'')
        end
    end.

(** [async function getActiveTab()]: [tabs[0]], [undefined] for no tab. *)
Definition getActiveTab {Exn} (browser : Browser Exn)
  : Action Exn (option Tab) :=
  tabs <~ await (tabs_query browser) ;;;
  done (hd_error tabs).

(** [chrome.tabs.sendMessage(tabId, message)], awaited. *)
Definition sendMessage {Exn} (browser : Browser Exn) (tabId : Z)
  (message : Message) : Action Exn (option Response) :=
  fun w =>
    await (tabs_sendMessage browser tabId message)
          (mkWorld (popup w) (sent w ++ [(tabId, message)])).

(** [tab?.url] *)
Definition urlOf (tab : option Tab) : option jsstring :=
  match tab with
  | Some t => tab_url t
  | None => None
  end.

(** The markup [analyze] puts in [SUMMARY] while it waits; the quotes are
    unit 34 and the ellipsis is U+2026. *)
Definition spinnerMarkup : jsstring :=
  lit "<span class=" ++ [34%N] ++ lit "spinner" ++ [34%N] ++
  lit " aria-hidden=" ++ [34%N] ++ lit "true" ++ [34%N] ++
  lit "></span> Analyzing current page" ++ [8230%N].

(** The message of the popup to the content script. *)
Definition analyzeRequest : Message :=
  {| message_type := Some (lit "ANALYZE_SEO") |}.

(** [async function analyze()]; the two early [return]s end their
    branches, and the dash put in [SCORE] is U+2014. *)
Definition analyze {Exn : Type} (toLocaleTimeString : Z -> jsstring)
  (browser : Browser Exn) : Action Exn unit :=
  assign (setREFRESH true) ;;;
  assign (setSCORE [8212%N]) ;;;
  assign (setSUMMARY (InnerHTML spinnerMarkup)) ;;;
  assign (setTIMESTAMP []) ;;;
  assign (setRESULTS []) ;;;
  assign (setError []) ;;;
  found <~ tryCatchAction
             (tab <~ getActiveTab browser ;;; done (Some tab))
             (fun e =>
                assign (setError (lit "Failed to get active tab.")) ;;;
                assign (setSUMMARY (TextContent (lit "Could not analyze."))) ;;;
                assign (setREFRESH false) ;;;
                done None) ;;;
  match found with
  | None => done tt
  | Some tab =>
      assign (setPAGE_URL (orElse (urlOf tab) (lit "(unknown URL)"))) ;;;
      if isRestrictedUrl (urlOf tab) then
        assign (setError
                  (lit "This page cannot be analyzed (restricted URL).")) ;;;
        assign (setSUMMARY
                  (TextContent
                     (lit "Open a regular website tab and try again."))) ;;;
        assign (setREFRESH false) ;;;
        done tt
      else
        tryFinally
          (tryCatchAction
             (analysis <~
                match tab with
                | Some t => sendMessage browser (tab_id t) analyzeRequest
                | None => throw TypeError
                end ;;;
              match analysis with
              | None => throw (ErrorObject (lit "Unexpected response"))
              | Some a =>
                  if negb (strEqb (response_type a) (lit "SEO_ANALYSIS"))
                  then throw (ErrorObject (lit "Unexpected response"))
                  else assign (render toLocaleTimeString (response_payload a))
              end)
             (fun e =>
                assign (setError
                  (lit "Could not reach analyzer on this page. Try reloading the tab.")) ;;;
                assign (setSUMMARY (TextContent (lit "Could not analyze.")))))
          (assign (setREFRESH false))
  end.

(** *** Reading a row back *)

(** The label, the detail, the badge text and the class of the badge of a
    row built by [createRow]. *)
Definition rowLabel (row : Node) : jsstring :=
  match node_children row with
  | leftEl :: _ =>
      match node_children leftEl with
      | labelEl :: _ => node_text labelEl
      | [] => []
      end
  | [] => []
  end.

Definition rowDetail (row : Node) : jsstring :=
  match node_children row with
  | leftEl :: _ =>
      match node_children leftEl with
      | _ :: detailEl :: _ => node_text detailEl
      | _ => []
      end
  | [] => []
  end.

Definition rowBadge (row : Node) : jsstring :=
  match node_children row with
  | _ :: badgeEl :: _ => node_text badgeEl
  | _ => []
  end.

Definition rowBadgeClass (row : Node) : jsstring :=
  match node_children row with
  | _ :: badgeEl :: _ => node_className badgeEl
  | _ => []
  end.

(** The nine results of a report, in the order the popup shows them. *)
Definition itemList (it : Items) : list SignalResult :=
  [items_title it; items_metaDescription it; items_metaKeywords it;
   items_headings it; items_images it; items_canonical it; items_robots it;
   items_structuredData it; items_wordCount it].

(** The messages [analyze] sends against a browser: one, to the first tab
    of the query, when that tab has a URL that is not restricted. *)
Definition requestsOf {Exn : Type} (browser : Browser Exn)
  : list (Z * Message) :=
  match tabs_query browser with
  | Normal (t :: _) =>
      if isRestrictedUrl (tab_url t) then [] else [(tab_id t, analyzeRequest)]
  | _ => []
  end.

(** A browser whose active tab shows [doc] at [url] and runs the content
    script: a message to the tab is answered by the listener. *)
Definition connectedBrowser {JsonValue Exn : Type}
  (JSON_parse : jsstring -> completion Exn JsonValue)
  (isLetterOrNumber : N -> bool) (doc : Document) (tabId : Z) (url : jsstring)
  : Browser Exn :=
  {| tabs_query := Normal [mkTab tabId (Some url)];
     tabs_sendMessage := fun _ message =>
       onMessage JSON_parse isLetterOrNumber doc (Some message) |}.

(** The report of the sample page. *)
Definition samplePayload : Payload :=
  {| generatedAt := 0;
     page_url := lit "https://example.com/";
     score_total := 72;
     raw :=
       {| raw_title := lit "Thirty-five units make a good title";
          raw_metaDescription :=
            lit "A description that is long enough to be within the range.";
          raw_metaKeywords := [];
          raw_headings := mkHeadings 0 2 0 0 0 0;
          raw_images := mkImages 10 5 5;
          raw_canonical := lit "https://example.com/";
          raw_robots := [];
          raw_jsonld := mkJsonLd 2 2 0;
          raw_wordCount := 120 |};
     items := sampleItems;
     summary := buildSummary sampleItems 72 |}.

(** * Properties *)

(** ** Arithmetic of the aggregator *)

Lemma clamp_range (n lo hi : Z) : lo <= hi -> lo <= clamp n lo hi <= hi.
Proof. unfold clamp. lia. Qed.

Lemma clamp_inside (n lo hi : Z) : lo <= n <= hi -> clamp n lo hi = n.
Proof. unfold clamp. lia. Qed.

Lemma strLength_nonneg (s : jsstring) : 0 <= strLength s.
Proof. unfold strLength. lia. Qed.

Lemma strLength_cons (c : codeUnit) (s : jsstring) :
  strLength (c :: s) = strLength s + 1.
Proof. unfold strLength. simpl List.length. lia. Qed.

Lemma isEmpty_true (s : jsstring) : isEmpty s = true <-> s = [].
Proof. destruct s; simpl; split; intros H; congruence. Qed.

Lemma isEmpty_false (s : jsstring) : isEmpty s = false <-> s <> [].
Proof. destruct s; simpl; split; intros H; congruence. Qed.

(** ** Title *)

(** C5: an empty title scores 0, bad, with the badge "Missing"; a title of
    10 to 60 code units, both bounds included, scores 20, good; any other
    title (shorter than 10 or longer than 60) scores 12, warn. *)
Theorem scoreTitle_bands (title : jsstring) :
  let r := scoreTitle title in
  (title = [] ->
   points r = 0 /\ status r = bad /\ badge r = lit "Missing") /\
  (10 <= strLength title <= 60 -> points r = 20 /\ status r = good) /\
  (title <> [] -> strLength title < 10 \/ 60 < strLength title ->
   points r = 12 /\ status r = warn).
Proof.
  cbv zeta. unfold scoreTitle. repeat split.
  - subst title. reflexivity.
  - subst title. reflexivity.
  - subst title. reflexivity.
  - destruct title as [|c t]; [cbn in H; lia|]. cbn [isEmpty].
    destruct H as [Hlo Hhi].
    apply Z.leb_le in Hlo. apply Z.leb_le in Hhi.
    rewrite Hlo, Hhi. reflexivity.
  - destruct title as [|c t]; [cbn in H; lia|]. cbn [isEmpty].
    destruct H as [Hlo Hhi].
    apply Z.leb_le in Hlo. apply Z.leb_le in Hhi.
    rewrite Hlo, Hhi. reflexivity.
  - apply isEmpty_false in H. rewrite H.
    destruct H0 as [Hs|Hl].
    + assert (E : (10 <=? strLength title) = false) by (apply Z.leb_gt; lia).
      rewrite E. reflexivity.
    + assert (E : (strLength title <=? 60) = false) by (apply Z.leb_gt; lia).
      rewrite E, andb_false_r. reflexivity.
  - apply isEmpty_false in H. rewrite H.
    destruct H0 as [Hs|Hl].
    + assert (E : (10 <=? strLength title) = false) by (apply Z.leb_gt; lia).
      rewrite E. cbn [andb]. cbn [status]. destruct (_ <? 10); reflexivity.
    + assert (E : (strLength title <=? 60) = false) by (apply Z.leb_gt; lia).
      rewrite E, andb_false_r. cbn [status].
      destruct (_ <? 10); reflexivity.
Qed.

(** The three bands of C5 at the empty title, at a title of 35 units and at
    a title of 5 units. *)
Lemma scoreTitle_bands_witness :
  (points (scoreTitle []) = 0 /\ status (scoreTitle []) = bad /\
   badge (scoreTitle []) = lit "Missing") /\
  (points (scoreTitle (lit "Thirty-five units make a good title")) = 20 /\
   status (scoreTitle (lit "Thirty-five units make a good title")) = good) /\
  (points (scoreTitle (lit "Short")) = 12 /\
   status (scoreTitle (lit "Short")) = warn).
Proof.
  split; [|split].
  - apply (proj1 (scoreTitle_bands [])). reflexivity.
  - apply (proj1 (proj2 (scoreTitle_bands
             (lit "Thirty-five units make a good title")))).
    vm_compute. split; discriminate.
  - apply (proj2 (proj2 (scoreTitle_bands (lit "Short")))).
    + discriminate.
    + left. vm_compute. reflexivity.
Defined.

(** ** Headings *)

Lemma headings_total (c : HeadingCounts) :
  fold_left (fun a b => a + b) (Object_values c) 0 =
  h1 c + h2 c + h3 c + h4 c + h5 c + h6 c.
Proof. unfold Object_values. cbn [fold_left]. lia. Qed.

Lemma orZero_id (x : Z) : orZero x = x.
Proof. unfold orZero. destruct (Z.eqb_spec x 0); congruence. Qed.

(** C6: with no heading at all (the six counts sum to 0) the scorer returns
    0, bad; otherwise one H1 gives 15, good, badge "H1×1"; no H1 gives 7,
    warn, badge "No H1"; two or more H1 give 7, warn. *)
Theorem scoreHeadings_bands (c : HeadingCounts) :
  let r := scoreHeadings c in
  let sum := h1 c + h2 c + h3 c + h4 c + h5 c + h6 c in
  (sum = 0 -> points r = 0 /\ status r = bad) /\
  (sum <> 0 -> h1 c = 1 ->
   points r = 15 /\ status r = good /\
   badge r = lit "H1" ++ [215%N] ++ lit "1") /\
  (sum <> 0 -> h1 c = 0 ->
   points r = 7 /\ status r = warn /\ badge r = lit "No H1") /\
  (sum <> 0 -> 2 <= h1 c -> points r = 7 /\ status r = warn).
Proof.
  cbv zeta. unfold scoreHeadings.
  rewrite headings_total, orZero_id.
  split; [|split; [|split]].
  - intros H. rewrite H. cbn. auto.
  - intros H H1. apply Z.eqb_neq in H. rewrite H, H1. cbn. auto.
  - intros H H1. apply Z.eqb_neq in H. rewrite H, H1. cbn. auto.
  - intros H H1. apply Z.eqb_neq in H. rewrite H.
    destruct (Z.eqb_spec (h1 c) 1) as [E|_]; [lia|].
    destruct (Z.eqb_spec (h1 c) 0) as [E|_]; [lia|]. cbn. auto.
Qed.

(** C6 at the counts h1 = 1, h2 = 3 of the specification's example. *)
Lemma scoreHeadings_bands_witness :
  points (scoreHeadings (mkHeadings 1 3 0 0 0 0)) = 15 /\
  status (scoreHeadings (mkHeadings 1 3 0 0 0 0)) = good /\
  badge (scoreHeadings (mkHeadings 1 3 0 0 0 0)) =
    lit "H1" ++ [215%N] ++ lit "1".
Proof.
  apply (proj1 (proj2 (scoreHeadings_bands (mkHeadings 1 3 0 0 0 0)))).
  - simpl. lia.
  - reflexivity.
Defined.

(** ** Structured data *)

(** C2: for statistics whose parsed blocks and parse errors are among the
    counted blocks: no block scores 0, warn; one block or more, all of them
    parsed, scores 10, good; a parsed block together with a parse error
    scores 5, warn.  So do the two records of the specification's
    examples. *)
Theorem scoreStructuredData_bands (s : JsonLdStats) :
  0 <= parseErrors s -> parsedCount s + parseErrors s <= count s ->
  let r := scoreStructuredData s in
  (count s = 0 -> points r = 0 /\ status r = warn) /\
  (1 <= count s -> parsedCount s = count s ->
   points r = 10 /\ status r = good) /\
  (1 <= parsedCount s -> 1 <= parseErrors s ->
   points r = 5 /\ status r = warn) /\
  (s = mkJsonLd 2 2 0 -> points r = 10 /\ status r = good) /\
  (s = mkJsonLd 2 1 1 -> points r = 5 /\ status r = warn).
Proof.
  intros He Hle. cbv zeta. unfold scoreStructuredData.
  split; [|split; [|split; [|split]]].
  - intros H. rewrite H. cbn. auto.
  - intros H1 H2.
    destruct (Z.eqb_spec (count s) 0) as [E|_]; [lia|].
    destruct (Z.ltb_spec 0 (parsedCount s)) as [_|E]; [|lia].
    destruct (Z.eqb_spec (parseErrors s) 0) as [_|E]; [|lia].
    cbn. auto.
  - intros H1 H2.
    destruct (Z.eqb_spec (count s) 0) as [E|_]; [lia|].
    destruct (Z.eqb_spec (parseErrors s) 0) as [E|_]; [lia|].
    rewrite andb_false_r. cbn. auto.
  - intros ->. cbn. auto.
  - intros ->. cbn. auto.
Qed.

(** C2 at the two records of the specification's examples. *)
Lemma scoreStructuredData_bands_witness :
  (points (scoreStructuredData (mkJsonLd 2 2 0)) = 10 /\
   status (scoreStructuredData (mkJsonLd 2 2 0)) = good) /\
  (points (scoreStructuredData (mkJsonLd 2 1 1)) = 5 /\
   status (scoreStructuredData (mkJsonLd 2 1 1)) = warn).
Proof.
  split.
  - apply (proj1 (proj2 (scoreStructuredData_bands (mkJsonLd 2 2 0)
             ltac:(simpl; lia) ltac:(simpl; lia)))).
    + simpl. lia.
    + reflexivity.
  - apply (proj1 (proj2 (proj2 (scoreStructuredData_bands (mkJsonLd 2 1 1)
             ltac:(simpl; lia) ltac:(simpl; lia))))).
    + simpl. lia.
    + simpl. lia.
Defined.

(** ** Prefixes and substrings *)

Lemma startsWith_spec (pre s : jsstring) :
  startsWith s pre = true <-> exists rest, s = pre ++ rest.
Proof.
  revert s. induction pre as [|p pre IH]; intros s; simpl.
  - split; [intros _; now exists s | reflexivity].
  - destruct s as [|c s].
    + split; [discriminate | intros [rest H]; discriminate].
    + rewrite andb_true_iff, N.eqb_eq, IH. split.
      * intros [-> [rest ->]]. now exists rest.
      * intros [rest H]. injection H as -> ->. split; [reflexivity|].
        now exists rest.
Qed.

Lemma prefixIgnoreCase_spec (pre s : jsstring) :
  prefixIgnoreCase pre s = true <-> startsWithIgnoreCase pre s.
Proof.
  unfold startsWithIgnoreCase.
  revert s. induction pre as [|p pre IH]; intros s; simpl.
  - split; [intros _; now exists [], s | reflexivity].
  - destruct s as [|c s].
    + split; [discriminate|].
      intros (a & b & H & Hm). destruct a; discriminate.
    + rewrite andb_true_iff, N.eqb_eq, IH. split.
      * intros [Hc (a & b & -> & Hm)]. exists (c :: a), b.
        simpl. now rewrite Hc, Hm.
      * intros (a & b & H & Hm). destruct a as [|x a]; [discriminate|].
        simpl in H, Hm. injection H as -> ->. injection Hm as Hx Hm.
        split; [exact Hx|]. now exists a, b.
Qed.

Lemma includesIgnoreCase_spec (pat s : jsstring) :
  includesIgnoreCase pat s = true <-> containsIgnoreCase pat s.
Proof.
  unfold containsIgnoreCase.
  induction s as [|c s IH]; simpl.
  - rewrite orb_false_r, prefixIgnoreCase_spec. split.
    + intros (a & b & H & Hm). exists [], a, b. now split.
    + intros (a & m & b & H & Hm).
      destruct a; [|discriminate]. exists m, b. now split.
  - rewrite orb_true_iff, prefixIgnoreCase_spec, IH. split.
    + intros [(a & b & H & Hm) | (a & m & b & H & Hm)].
      * exists [], a, b. now split.
      * exists (c :: a), m, b. simpl. now rewrite H.
    + intros (a & m & b & H & Hm). destruct a as [|x a].
      * left. exists m, b. now split.
      * right. simpl in H. injection H as -> ->. now exists a, m, b.
Qed.

Lemma asciiLower_letter (p c : codeUnit) :
  (97 <= p <= 122)%N -> (asciiLower c =? p)%N = matchesIgnoreCase p c.
Proof.
  intros Hp. unfold asciiLower, matchesIgnoreCase.
  destruct (N.leb_spec 65 c), (N.leb_spec c 90); cbn [andb];
    destruct (N.eqb_spec c p), (N.eqb_spec c (p - 32));
    cbn [orb]; try reflexivity; try (apply N.eqb_neq; lia);
    try (apply N.eqb_eq; lia); lia.
Qed.

Lemma asciiLower_symbol (p c : codeUnit) :
  (p < 65)%N -> (asciiLower c =? p)%N = (c =? p)%N.
Proof.
  intros Hp. unfold asciiLower.
  destruct (N.leb_spec 65 c), (N.leb_spec c 90); cbn [andb]; try reflexivity.
  destruct (N.eqb_spec c p); [lia|]. apply N.eqb_neq. lia.
Qed.

Lemma prefixIgnoreCase_symbols (pat s : jsstring) :
  forallb (fun p => (p <? 65)%N) pat = true ->
  prefixIgnoreCase pat s = startsWith s pat.
Proof.
  revert s. induction pat as [|p pat IH]; intros s H; simpl; [reflexivity|].
  simpl in H. apply andb_true_iff in H as [Hp H]. apply N.ltb_lt in Hp.
  destruct s as [|c s]; [reflexivity|].
  now rewrite asciiLower_symbol, IH.
Qed.

(** The regular expression of [scoreCanonical] accepts the strings that
    start with "http://" or "https://", case ignored. *)
Lemma testHttpPrefix_spec (href : jsstring) :
  testHttpPrefix href = true <->
  startsWithIgnoreCase (lit "http://") href \/
  startsWithIgnoreCase (lit "https://") href.
Proof.
  rewrite <- !prefixIgnoreCase_spec, <- orb_true_iff.
  match goal with |- ?a = true <-> ?b = true => cut (a = b) end;
    [intros ->; reflexivity|].
  change (lit "http://") with ([104; 116; 116; 112] ++ lit "://")%N.
  change (lit "https://") with ([104; 116; 116; 112; 115] ++ lit "://")%N.
  destruct href as [|h [|t1 [|t2 [|p rest]]]]; cbn [app prefixIgnoreCase];
    rewrite ?andb_false_r; try reflexivity.
  unfold testHttpPrefix.
  rewrite !asciiLower_letter by lia.
  rewrite (prefixIgnoreCase_symbols (lit "://") rest) by reflexivity.
  destruct rest as [|s rest'].
  - cbn. rewrite !andb_false_r. reflexivity.
  - rewrite asciiLower_letter by lia.
    rewrite (prefixIgnoreCase_symbols (lit "://") rest') by reflexivity.
    destruct (matchesIgnoreCase 104%N h), (matchesIgnoreCase 116%N t1),
      (matchesIgnoreCase 116%N t2), (matchesIgnoreCase 112%N p),
      (matchesIgnoreCase 115%N s), (startsWith rest' (lit "://")),
      (startsWith (s :: rest') (lit "://")); reflexivity.
Qed.

(** ** Canonical link *)

(** C9: an empty href scores 0, warn; an href that starts with "http://" or
    "https://" (case ignored) or with "/" scores 5, good; any other href that
    is not empty, such as "ftp://example.com", scores 3, warn. *)
Theorem scoreCanonical_bands (href : jsstring) :
  let r := scoreCanonical href in
  let urlShaped :=
    startsWithIgnoreCase (lit "http://") href \/
    startsWithIgnoreCase (lit "https://") href \/
    (exists rest, href = lit "/" ++ rest) in
  (href = [] -> points r = 0 /\ status r = warn) /\
  (urlShaped -> points r = 5 /\ status r = good) /\
  (href <> [] -> ~ urlShaped -> points r = 3 /\ status r = warn) /\
  (href = lit "ftp://example.com" -> points r = 3 /\ status r = warn).
Proof.
  cbv zeta.
  assert (Hshape :
    testHttpPrefix href || startsWith href (lit "/") = true <->
    startsWithIgnoreCase (lit "http://") href \/
    startsWithIgnoreCase (lit "https://") href \/
    (exists rest, href = lit "/" ++ rest)).
  { rewrite orb_true_iff, testHttpPrefix_spec, startsWith_spec. tauto. }
  unfold scoreCanonical. split; [|split; [|split]].
  - intros ->. cbn. auto.
  - intros H. assert (Hne : isEmpty href = false).
    { apply isEmpty_false. intros ->.
      apply Hshape in H. cbn in H. discriminate. }
    apply Hshape in H. rewrite Hne, H. cbn. auto.
  - intros Hne H. apply isEmpty_false in Hne. rewrite Hne.
    destruct (testHttpPrefix href || startsWith href (lit "/")) eqn:E.
    + exfalso. apply H, Hshape. reflexivity.
    + cbn. auto.
  - intros ->. vm_compute. auto.
Qed.

(** C9 at an absolute URL in capitals, at a path and at the
    specification's "ftp://example.com". *)
Lemma scoreCanonical_bands_witness :
  (points (scoreCanonical (lit "HTTPS://Example.com/a")) = 5 /\
   status (scoreCanonical (lit "HTTPS://Example.com/a")) = good) /\
  (points (scoreCanonical (lit "/a/b")) = 5 /\
   status (scoreCanonical (lit "/a/b")) = good) /\
  (points (scoreCanonical (lit "ftp://example.com")) = 3 /\
   status (scoreCanonical (lit "ftp://example.com")) = warn).
Proof.
  split; [|split].
  - apply (proj1 (proj2 (scoreCanonical_bands (lit "HTTPS://Example.com/a")))).
    right. left. exists (lit "HTTPS://"), (lit "Example.com/a").
    split; reflexivity.
  - apply (proj1 (proj2 (scoreCanonical_bands (lit "/a/b")))).
    right. right. exists (lit "a/b"). reflexivity.
  - apply (proj2 (proj2 (proj2 (scoreCanonical_bands
             (lit "ftp://example.com"))))).
    reflexivity.
Defined.

(** ** Robots directive *)

Lemma plainPattern_cons (p : codeUnit) (r : jsstring) :
  plainPattern (p :: r) = true ->
  (p < 128)%N /\ p <> 107%N /\ (p = 105%N -> r <> []) /\ plainPattern r = true.
Proof.
  cbn [plainPattern]. rewrite !andb_true_iff, orb_true_iff, !negb_true_iff.
  rewrite N.ltb_lt, !N.eqb_neq, isEmpty_false. tauto.
Qed.

Lemma toLowerCase_cons (c : codeUnit) (s : jsstring) :
  toLowerCase (c :: s) = lowerUnit c ++ toLowerCase s.
Proof. reflexivity. Qed.

(** The lower case of a unit: one unit, the one [asciiLower] gives unless
    the unit is U+212A, or the pair i, U+0307 for U+0130. *)
Lemma lowerUnit_cases (c : codeUnit) :
  (c <> 304%N /\ c <> 8490%N /\ lowerUnit c = [asciiLower c]) \/
  (c = 8490%N /\ lowerUnit c = [107%N]) \/
  (c = 304%N /\ lowerUnit c = [105%N; 775%N]).
Proof.
  unfold lowerUnit, asciiLower.
  destruct (N.leb_spec 65 c), (N.leb_spec c 90); cbn [andb];
    destruct (N.eqb_spec c 304), (N.eqb_spec c 8490);
    try (left; repeat split; (lia || reflexivity));
    try (right; left; split; (lia || reflexivity));
    try (right; right; split; (lia || reflexivity)); lia.
Qed.

Lemma startsWith_toLowerCase (pat s : jsstring) :
  plainPattern pat = true ->
  startsWith (toLowerCase s) pat = prefixIgnoreCase pat s.
Proof.
  revert s. induction pat as [|p r IH]; intros s Hp; [reflexivity|].
  apply plainPattern_cons in Hp as (Hlt & Hk & Hi & Hr).
  destruct s as [|c s]; [reflexivity|].
  rewrite toLowerCase_cons. cbn [prefixIgnoreCase].
  destruct (lowerUnit_cases c) as [(_ & _ & ->) | [(-> & ->) | (-> & ->)]].
  - cbn [app startsWith]. now rewrite IH.
  - cbn [app startsWith].
    replace (107 =? p)%N with false by (symmetry; apply N.eqb_neq; lia).
    replace (asciiLower 8490 =? p)%N with false
      by (symmetry; apply N.eqb_neq; cbn; lia).
    reflexivity.
  - replace (asciiLower 304 =? p)%N with false
      by (symmetry; apply N.eqb_neq; cbn; lia).
    cbn [app startsWith andb].
    destruct (N.eqb_spec 105 p) as [E|_]; [|reflexivity]. cbn [andb].
    destruct r as [|p2 r']; [now destruct Hi|].
    apply plainPattern_cons in Hr as (Hlt2 & _).
    cbn [startsWith].
    replace (775 =? p2)%N with false by (symmetry; apply N.eqb_neq; lia).
    reflexivity.
Qed.

Lemma includes_toLowerCase (pat s : jsstring) :
  plainPattern pat = true ->
  includes (toLowerCase s) pat = includesIgnoreCase pat s.
Proof.
  intros Hp. destruct pat as [|p r].
  { transitivity true; [destruct (toLowerCase s) | destruct s]; reflexivity. }
  induction s as [|c s IH]; [reflexivity|].
  cbn [includesIgnoreCase].
  rewrite <- IH, <- (startsWith_toLowerCase (p :: r) (c :: s) Hp).
  rewrite toLowerCase_cons.
  destruct (lowerUnit_cases c) as [(_ & _ & ->) | [(_ & ->) | (_ & ->)]];
    cbn [app includes]; try reflexivity.
  apply plainPattern_cons in Hp as (Hlt & _).
  cbn [startsWith].
  replace (775 =? p)%N with false by (symmetry; apply N.eqb_neq; lia).
  reflexivity.
Qed.

(** C7: an empty directive scores 6, good; a directive that contains
    "noindex" or "nofollow", case ignored, scores 0, bad, as does
    "noindex, follow"; any other directive scores 6, good.  Nothing but the
    two substrings is looked at. *)
Theorem scoreRobots_bands (robots : jsstring) :
  let r := scoreRobots robots in
  let blocking :=
    containsIgnoreCase (lit "noindex") robots \/
    containsIgnoreCase (lit "nofollow") robots in
  (robots = [] -> points r = 6 /\ status r = good) /\
  (robots <> [] -> blocking -> points r = 0 /\ status r = bad) /\
  (robots <> [] -> ~ blocking -> points r = 6 /\ status r = good) /\
  (robots = lit "noindex, follow" -> points r = 0 /\ status r = bad).
Proof.
  cbv zeta.
  assert (Hblock :
    includes (toLowerCase robots) (lit "noindex") ||
    includes (toLowerCase robots) (lit "nofollow") = true <->
    containsIgnoreCase (lit "noindex") robots \/
    containsIgnoreCase (lit "nofollow") robots).
  { rewrite !includes_toLowerCase by reflexivity.
    now rewrite orb_true_iff, !includesIgnoreCase_spec. }
  unfold scoreRobots. split; [|split; [|split]].
  - intros ->. cbn. auto.
  - intros Hne H. apply isEmpty_false in Hne. apply Hblock in H.
    rewrite Hne, H. cbn. auto.
  - intros Hne H. apply isEmpty_false in Hne. rewrite Hne.
    destruct (includes (toLowerCase robots) (lit "noindex") ||
              includes (toLowerCase robots) (lit "nofollow")) eqn:E.
    + exfalso. apply H, Hblock. reflexivity.
    + cbn. auto.
  - intros ->. vm_compute. auto.
Qed.

(** C7 at a directive in capitals, at "index, follow" and at the
    specification's "noindex, follow". *)
Lemma scoreRobots_bands_witness :
  (points (scoreRobots (lit "NoFollow")) = 0 /\
   status (scoreRobots (lit "NoFollow")) = bad) /\
  (points (scoreRobots (lit "noindex, follow")) = 0 /\
   status (scoreRobots (lit "noindex, follow")) = bad).
Proof.
  split.
  - apply (proj1 (proj2 (scoreRobots_bands (lit "NoFollow")))).
    + discriminate.
    + right. exists [], (lit "NoFollow"), []. split; reflexivity.
  - apply (proj2 (proj2 (proj2 (scoreRobots_bands (lit "noindex, follow"))))).
    reflexivity.
Defined.

(** ** Rounding to binary64 *)

(** [fl] gives the doubles of the machine on the two literals of
    [scoreImages] and on a sample of quotients and percentages, ties and
    the largest array lengths included. *)
Lemma fl_agrees_with_binary64 :
  Qeq_bool hardware_0_9 (jsLiteral 9 10) = true /\
  Qeq_bool hardware_0_6 (jsLiteral 6 10) = true /\
  forallb (fun ab => agreesOn (fst ab) (snd ab))
    [(9, 10); (3, 5); (29, 200); (1, 3); (2, 3); (1, 1); (7, 8);
     (57, 100); (115, 200); (1, 4294967295); (4294967294, 4294967295);
     (3600000000000008, 4000000000000009)] = true.
Proof. vm_compute. auto. Qed.

(** An odd integer [M] is reached by the rounding of [n / d] exactly when
    [n / d] lies above the midpoint [M - 1/2]: the tie goes to the even
    neighbour [M - 1]. *)
Lemma roundNearestEven_ge_odd (n d M : Z) :
  0 < d -> Z.odd M = true ->
  (M <= roundNearestEven n d <-> (2 * M - 1) * d < 2 * n).
Proof.
  intros Hd HM. unfold roundNearestEven.
  pose proof (Z.div_mod n d ltac:(lia)) as Hn.
  pose proof (Z.mod_pos_bound n d Hd) as Hr.
  set (q := n / d) in *. set (r := n mod d) in *.
  destruct (Z.ltb_spec (2 * r) d) as [H1|H1].
  - split; intros H; nia.
  - destruct (Z.ltb_spec d (2 * r)) as [H2|H2].
    + split; intros H; nia.
    + assert (E : d = 2 * r) by lia.
      destruct (Z.even q) eqn:Hq.
      * split; intros H; nia.
      * assert (HMq : M <> q + 1).
        { intros EM. rewrite EM, Z.odd_add, <- Z.negb_even, Hq in HM.
          discriminate. }
        split; intros H; nia.
Qed.

(** Rounding does not pass an integer bound. *)
Lemma roundNearestEven_le (n d U : Z) :
  0 < d -> n <= U * d -> roundNearestEven n d <= U.
Proof.
  intros Hd HU. unfold roundNearestEven.
  pose proof (Z.div_mod n d ltac:(lia)) as Hn.
  pose proof (Z.mod_pos_bound n d Hd) as Hr.
  set (q := n / d) in *. set (r := n mod d) in *.
  destruct (Z.ltb_spec (2 * r) d) as [H1|H1]; [nia|].
  assert (q + 1 <= U) by nia.
  destruct (Z.ltb_spec d (2 * r)); [lia|]. destruct (Z.even q); lia.
Qed.

(** [binaryExponent n d] is the exponent of the binade of [n / d]. *)
Lemma binaryExponent_spec (n d : Z) :
  0 < n -> 0 < d ->
  let E := binaryExponent n d in
  (0 <= E /\ d * 2 ^ E <= n < d * 2 ^ (E + 1)) \/
  (E < 0 /\ d <= n * 2 ^ (- E) /\ n * 2 ^ (- E - 1) < d).
Proof.
  intros Hn Hd. cbv zeta. unfold binaryExponent.
  pose proof (Z.log2_spec n Hn) as Ln. pose proof (Z.log2_spec d Hd) as Ld.
  pose proof (Z.log2_nonneg n) as Nn. pose proof (Z.log2_nonneg d) as Nd.
  set (ln := Z.log2 n) in *. set (ld := Z.log2 d) in *.
  rewrite Z.pow_succ_r in Ln, Ld by lia.
  destruct (Z.leb_spec 0 (ln - ld)) as [Hk|Hk].
  - assert (Ek : 2 ^ ln = 2 ^ ld * 2 ^ (ln - ld)).
    { rewrite <- Z.pow_add_r by lia. f_equal. lia. }
    assert (Pk : 0 < 2 ^ (ln - ld)) by (apply Z.pow_pos_nonneg; lia).
    destruct (Z.leb_spec (d * 2 ^ (ln - ld)) n) as [Ht|Ht].
    + left. rewrite Z.pow_add_r, Z.pow_1_r by lia. nia.
    + destruct (Z.eq_dec (ln - ld) 0) as [E0|E0].
      * right. rewrite E0 in *. replace (- (0 - 1)) with 1 by lia.
        replace (- (0 - 1) - 1) with 0 by lia. cbn [Z.pow Z.pow_pos Pos.iter] in *. nia.
      * left. replace (ln - ld - 1 + 1) with (ln - ld) by lia.
        assert (E1 : 2 ^ (ln - ld) = 2 * 2 ^ (ln - ld - 1)).
        { rewrite <- Z.pow_succ_r by lia. f_equal. lia. }
        nia.
  - assert (Ek : 2 ^ ld = 2 ^ ln * 2 ^ (- (ln - ld))).
    { rewrite <- Z.pow_add_r by lia. f_equal. lia. }
    assert (Pk : 0 < 2 ^ (- (ln - ld))) by (apply Z.pow_pos_nonneg; lia).
    assert (E1 : 2 ^ (- (ln - ld)) = 2 * 2 ^ (- (ln - ld) - 1)).
    { rewrite <- Z.pow_succ_r by lia. f_equal. lia. }
    destruct (Z.leb_spec d (n * 2 ^ (- (ln - ld)))) as [Ht|Ht].
    + right. nia.
    + right. replace (- (ln - ld - 1) - 1) with (- (ln - ld)) by lia.
      replace (- (ln - ld - 1)) with (Z.succ (- (ln - ld))) by lia.
      rewrite Z.pow_succ_r by lia. nia.
Qed.

(** An integer quotient is its own rounding. *)
Lemma roundNearestEven_exact (k d : Z) : 0 < d -> roundNearestEven (k * d) d = k.
Proof.
  intros Hd. unfold roundNearestEven.
  rewrite Z.div_mul, Z.mod_mul by lia.
  destruct (Z.ltb_spec (2 * 0) d); [reflexivity|lia].
Qed.

(** The double of a ratio in (0, 1]: its exponent is at most 0, and its
    significand is the ratio scaled to 53 bits and rounded. *)
Lemma roundPositive_fraction (a b : Z) :
  0 < a <= b ->
  let E := binaryExponent a b in
  E <= 0 /\
  roundPositive a b =
    roundNearestEven (a * 2 ^ (52 - E)) b # Z.to_pos (2 ^ (52 - E)).
Proof.
  intros Hab. cbv zeta.
  assert (HE : binaryExponent a b <= 0).
  { destruct (binaryExponent_spec a b) as [[H0 [Hl _]]|[H0 _]]; try lia.
    destruct (Z.eq_dec (binaryExponent a b) 0) as [->|Hne]; [lia|].
    assert (2 ^ 1 <= 2 ^ binaryExponent a b) by (apply Z.pow_le_mono_r; lia).
    nia. }
  split; [exact HE|]. unfold roundPositive.
  destruct (Z.leb_spec 0 (binaryExponent a b - 52)); [lia|].
  replace (- (binaryExponent a b - 52)) with (52 - binaryExponent a b) by lia.
  reflexivity.
Qed.

(** Comparing the double of [a / b], in (0, 1], with the double
    [M / 2^53] of [1/2, 1) whose significand [M] is odd: the double of the
    ratio reaches it exactly when the ratio lies above the midpoint below
    [M]. *)
Lemma jsGe_roundPositive (a b M : Z) :
  0 < a <= b -> 2 ^ 52 < M < 2 ^ 53 -> Z.odd M = true ->
  jsGe (roundPositive a b) (M # 9007199254740992) = true <->
  (2 * M - 1) * b < 2 ^ 54 * a.
Proof.
  intros Hab HM Hodd.
  destruct (roundPositive_fraction a b Hab) as [HE ->].
  pose proof (binaryExponent_spec a b ltac:(lia) ltac:(lia)) as Hspec.
  cbv zeta in Hspec.
  set (E := binaryExponent a b) in *.
  assert (HK : 0 < 2 ^ (52 - E)) by (apply Z.pow_pos_nonneg; lia).
  unfold jsGe, Qle_bool. cbn [Qnum Qden].
  rewrite Z2Pos.id by exact HK. rewrite Z.leb_le.
  change (Z.pos 9007199254740992) with (2 ^ 53) in *.
  destruct Hspec as [[H0 [Hl Hu]]|[H0 [Hl Hu]]].
  - assert (E0 : E = 0) by lia. rewrite E0 in *.
    rewrite Z.pow_0_r in Hl. assert (a = b) by lia. subst b.
    rewrite (Z.mul_comm a (2 ^ (52 - 0))), roundNearestEven_exact by lia.
    change (52 - 0) with 52.
    change (2 ^ 54) with 18014398509481984 in *.
    change (2 ^ 53) with 9007199254740992 in *.
    change (2 ^ 52) with 4503599627370496 in *.
    split; intros H; nia.
  - destruct (Z.eq_dec E (-1)) as [E1|E1].
    + rewrite E1 in *. change (52 - -1) with 53.
      pose proof (roundNearestEven_ge_odd (a * 2 ^ 53) b M
                    ltac:(lia) Hodd) as Hr.
      set (m := roundNearestEven _ _) in *.
      change (2 ^ 54) with 18014398509481984 in *.
      change (2 ^ 53) with 9007199254740992 in *.
      lia.
    + assert (Ex : 2 ^ (- E - 1) = 2 * 2 ^ (- E - 2)).
      { rewrite <- Z.pow_succ_r by lia. f_equal. lia. }
      assert (Ek : 2 ^ (52 - E) = 2 ^ 54 * 2 ^ (- E - 2)).
      { rewrite <- Z.pow_add_r by lia. f_equal. lia. }
      assert (Px : 0 < 2 ^ (- E - 2)) by (apply Z.pow_pos_nonneg; lia).
      assert (Hm : roundNearestEven (a * 2 ^ (52 - E)) b <= 2 ^ 53).
      { apply roundNearestEven_le; [lia|]. rewrite Ek. 
        change (2 ^ 54) with (2 ^ 53 * 2). nia. }
      set (m := roundNearestEven _ _) in *.
      rewrite Ek. rewrite Ex in Hu. set (X := 2 ^ (- E - 2)) in *.
      change (2 ^ 54) with 18014398509481984 in *.
      change (2 ^ 53) with 9007199254740992 in *.
      change (2 ^ 52) with 4503599627370496 in *.
      assert (HaX : a <= a * X) by nia.
      assert (HMX : M <= M * X) by nia.
      assert (Hb : 2 * a < b) by lia.
      assert (HMb : 9007199254740993 * b <= (2 * M - 1) * b) by nia.
      split; intros H; exfalso; lia.
Qed.

(** [a / b] on two positive integers. *)
Lemma jsDiv_integers (a b : Z) :
  0 < a -> 0 < b -> jsDiv (inject_Z a) (inject_Z b) = roundPositive a b.
Proof.
  intros Ha Hb. destruct a as [|pa|pa]; try lia. destruct b as [|pb|pb]; try lia.
  unfold jsDiv, fl, Qdiv, Qmult, Qinv, inject_Z. cbn [Qnum Qden].
  cbn [Z.mul Pos.mul]. rewrite Pos.mul_1_r. reflexivity.
Qed.

Lemma jsDiv_zero (b : Z) : jsDiv (inject_Z 0) (inject_Z b) = 0%Q.
Proof. reflexivity. Qed.

(** The literals [0.9] and [0.6] as doubles: the first lies above 9/10,
    the second below 6/10. *)
Lemma literal_0_9 : jsLiteral 9 10 = 8106479329266893 # 9007199254740992.
Proof. vm_compute. reflexivity. Qed.

Lemma literal_0_6 : jsLiteral 6 10 = 5404319552844595 # 9007199254740992.
Proof. vm_compute. reflexivity. Qed.

(** For a total below 2^32 the comparison of the rounded quotient with the
    rounded literal is the comparison of the exact ratio with the decimal. *)
Lemma ratio_ge_0_9 (a b : Z) :
  0 <= a <= b -> 0 < b < 2 ^ 32 ->
  jsGe (jsDiv (inject_Z a) (inject_Z b)) (jsLiteral 9 10) = true <->
  9 * b <= 10 * a.
Proof.
  intros Ha Hb. rewrite literal_0_9.
  destruct (Z.eq_dec a 0) as [->|Hne].
  - rewrite jsDiv_zero. split; [discriminate | lia].
  - rewrite jsDiv_integers by lia.
    rewrite jsGe_roundPositive by (reflexivity || lia).
    change (2 ^ 32) with 4294967296 in Hb.
    change (2 ^ 54) with 18014398509481984. lia.
Qed.

Lemma ratio_ge_0_6 (a b : Z) :
  0 <= a <= b -> 0 < b < 2 ^ 32 ->
  jsGe (jsDiv (inject_Z a) (inject_Z b)) (jsLiteral 6 10) = true <->
  6 * b <= 10 * a.
Proof.
  intros Ha Hb. rewrite literal_0_6.
  destruct (Z.eq_dec a 0) as [->|Hne].
  - rewrite jsDiv_zero. split; [discriminate | lia].
  - rewrite jsDiv_integers by lia.
    rewrite jsGe_roundPositive by (reflexivity || lia).
    change (2 ^ 32) with 4294967296 in Hb.
    change (2 ^ 54) with 18014398509481984. lia.
Qed.

(** The exact ratio against a decimal, by cross multiplication. *)
Lemma altCoverage_ge (n : Z) (d : positive) (images : ImageStats) :
  0 < total images ->
  (n # d <= altCoverage images)%Q <->
  n * total images <= withAlt images * Z.pos d.
Proof.
  intros Ht. unfold altCoverage. destruct (total images) as [|pt|pt]; try lia.
  unfold Qle, Qdiv, Qmult, Qinv, inject_Z. cbn [Qnum Qden].
  rewrite Z.mul_1_r. cbn [Pos.mul]. reflexivity.
Qed.

Lemma altCoverage_lt (n : Z) (d : positive) (images : ImageStats) :
  0 < total images ->
  (altCoverage images < n # d)%Q <->
  withAlt images * Z.pos d < n * total images.
Proof.
  intros Ht. unfold altCoverage. destruct (total images) as [|pt|pt]; try lia.
  unfold Qlt, Qdiv, Qmult, Qinv, inject_Z. cbn [Qnum Qden].
  rewrite Z.mul_1_r. cbn [Pos.mul]. reflexivity.
Qed.

(** ** Images *)

(** C4: for image statistics with [0 <= withAlt <= total], [total] being
    the length of an array (below 2^32): no image scores 6, warn; an alt
    coverage of at least 9/10 scores 10, good; a coverage of at least 6/10
    and below 9/10 scores 6, warn; a lower one scores 2, bad.  The bounds
    are not strict: 9 images out of 10 score 10, good, with the badge
    "90%". *)
Theorem scoreImages_bands (images : ImageStats) :
  0 <= withAlt images <= total images -> total images < 2 ^ 32 ->
  let r := scoreImages images in
  (total images = 0 -> points r = 6 /\ status r = warn) /\
  (total images <> 0 -> (9 # 10 <= altCoverage images)%Q ->
   points r = 10 /\ status r = good) /\
  (total images <> 0 ->
   (6 # 10 <= altCoverage images)%Q -> (altCoverage images < 9 # 10)%Q ->
   points r = 6 /\ status r = warn) /\
  (total images <> 0 -> (altCoverage images < 6 # 10)%Q ->
   points r = 2 /\ status r = bad) /\
  (withAlt images = 9 -> total images = 10 ->
   points r = 10 /\ status r = good /\ badge r = lit "90%").
Proof.
  intros Ha Hb. cbv zeta.
  split; [|split; [|split; [|split]]].
  - intros H. unfold scoreImages. rewrite H. cbn. auto.
  - intros Hne H. apply altCoverage_ge in H; [|lia].
    unfold scoreImages.
    destruct (Z.eqb_spec (total images) 0) as [E|_]; [lia|].
    rewrite (proj2 (ratio_ge_0_9 _ _ Ha ltac:(lia))) by lia. cbn. auto.
  - intros Hne H6 H9.
    apply altCoverage_ge in H6; [|lia]. apply altCoverage_lt in H9; [|lia].
    unfold scoreImages.
    destruct (Z.eqb_spec (total images) 0) as [E|_]; [lia|].
    destruct (jsGe _ (jsLiteral 9 10)) eqn:E9.
    { apply ratio_ge_0_9 in E9; lia. }
    rewrite (proj2 (ratio_ge_0_6 _ _ Ha ltac:(lia))) by lia. cbn. auto.
  - intros Hne H6. apply altCoverage_lt in H6; [|lia].
    unfold scoreImages.
    destruct (Z.eqb_spec (total images) 0) as [E|_]; [lia|].
    destruct (jsGe _ (jsLiteral 9 10)) eqn:E9.
    { apply ratio_ge_0_9 in E9; lia. }
    destruct (jsGe _ (jsLiteral 6 10)) eqn:E6.
    { apply ratio_ge_0_6 in E6; lia. }
    cbn. auto.
  - intros H9 H10. unfold scoreImages. rewrite H9, H10. vm_compute. auto.
Qed.

(** C4 at 9 images with an alt text out of 10. *)
Lemma scoreImages_bands_witness :
  points (scoreImages (mkImages 10 9 1)) = 10 /\
  status (scoreImages (mkImages 10 9 1)) = good /\
  badge (scoreImages (mkImages 10 9 1)) = lit "90%".
Proof.
  apply (proj2 (proj2 (proj2 (proj2 (scoreImages_bands (mkImages 10 9 1)
           ltac:(simpl; lia) ltac:(simpl; lia)))))); reflexivity.
Defined.

(** The bound on [total] is needed: doubles cannot tell a ratio within
    3e-17 of 9/10 from 9/10, which takes more than 3e15 images, far beyond
    the length of any array. *)
Remark scoreImages_beyond_array_lengths :
  let images := mkImages 4000000000000009 3600000000000008 400000000000001 in
  (altCoverage images < 9 # 10)%Q /\
  points (scoreImages images) = 10 /\ status (scoreImages images) = good.
Proof. vm_compute. auto. Qed.

(** ** Summary *)

Lemma Status_eqb_eq (a b : Status) : Status_eqb a b = true <-> a = b.
Proof. destruct a, b; simpl; split; intros H; congruence. Qed.

(** The array [positives] of [buildSummary] holds the labels of the
    "Strong" clause and the array [issues] those of the "Check" clause. *)
Lemma buildSummary_unfold (it : Items) (totalScore : Z) :
  buildSummary it totalScore =
  join (lit " ")
    ([lit "SEO score: " ++ numberToString totalScore ++ lit "/100."] ++
     (if negb (List.length (strongLabels it) =? 0)%nat
      then [lit "Strong: " ++ join (lit ", ") (strongLabels it) ++ lit "."]
      else []) ++
     (if negb (List.length (checkLabels it) =? 0)%nat
      then [lit "Check: " ++ join (lit ", ") (checkLabels it) ++ lit "."]
      else [])).
Proof.
  unfold buildSummary, strongLabels, checkLabels, selected, push.
  destruct (Status_eqb (status (items_title it)) good),
    (Status_eqb (status (items_metaDescription it)) good),
    (Status_eqb (status (items_canonical it)) good),
    (Status_eqb (status (items_structuredData it)) good);
    destruct (Status_eqb (status (items_headings it)) good),
      (Status_eqb (status (items_images it)) good),
      (Status_eqb (status (items_robots it)) bad),
      (Status_eqb (status (items_wordCount it)) good);
    reflexivity.
Qed.

Lemma clause_length (heading : jsstring) (labels : list jsstring) :
  (if negb (List.length labels =? 0)%nat
   then [heading ++ join (lit ", ") labels ++ lit "."] else []) =
  clause heading labels.
Proof. destruct labels; reflexivity. Qed.

(** C8: the summary is the sentence that reports the total score, followed
    by a "Strong" clause that lists, in the order title, meta description,
    canonical, structured data, those of the four whose status is good, and
    by a "Check" clause that lists, in the order headings, image alts,
    robots, content length, the signals whose status is not good, robots
    being listed only when its status is bad; a clause with an empty list is
    left out.  For the report of the specification's example both clauses
    are present and the "Check" clause leaves robots out. *)
Theorem buildSummary_clauses (it : Items) (totalScore : Z) :
  buildSummary it totalScore = summarySpec it totalScore /\
  (status (items_title it) = good ->
   status (items_metaDescription it) = good ->
   status (items_canonical it) = good ->
   status (items_structuredData it) = good ->
   status (items_headings it) <> good ->
   status (items_images it) <> good ->
   status (items_wordCount it) <> good ->
   status (items_robots it) = good ->
   buildSummary it totalScore =
   lit "SEO score: " ++ numberToString totalScore ++
   lit "/100. Strong: title, meta description, canonical, structured data. Check: headings, image alts, content length.").
Proof.
  rewrite buildSummary_unfold, !clause_length.
  split; [reflexivity|].
  intros Ht Hd Hc Hs Hh Hi Hw Hr.
  unfold strongLabels, checkLabels, selected.
  rewrite Ht, Hd, Hc, Hs, Hr.
  rewrite <- Status_eqb_eq in Hh, Hi, Hw.
  apply not_true_is_false in Hh, Hi, Hw. rewrite Hh, Hi, Hw.
  cbn [Status_eqb negb filter map snd fst clause app].
  cbn [join]. rewrite <- !app_assoc. reflexivity.
Qed.

(** C8 at the items of the sample page, whose scores sum to 72. *)
Lemma buildSummary_clauses_witness :
  buildSummary sampleItems 72 =
  lit "SEO score: " ++ numberToString 72 ++
  lit "/100. Strong: title, meta description, canonical, structured data. Check: headings, image alts, content length.".
Proof.
  apply (proj2 (buildSummary_clauses sampleItems 72));
    solve [reflexivity | vm_compute; discriminate].
Defined.

(** ** Ranges of the nine scores *)

Lemma scoreTitle_range (title : jsstring) :
  0 <= points (scoreTitle title) <= 20.
Proof.
  unfold scoreTitle. destruct (isEmpty title); [cbn; lia|].
  destruct (_ && _); cbn; lia.
Qed.

Lemma scoreMetaDescription_range (description : jsstring) :
  0 <= points (scoreMetaDescription description) <= 20.
Proof.
  unfold scoreMetaDescription. destruct (isEmpty description); [cbn; lia|].
  destruct (_ && _); cbn; lia.
Qed.

Lemma scoreMetaKeywords_range (keywords : jsstring) :
  0 <= points (scoreMetaKeywords keywords) <= 3.
Proof. unfold scoreMetaKeywords. destruct (isEmpty keywords); cbn; lia. Qed.

Lemma scoreHeadings_range (counts : HeadingCounts) :
  0 <= points (scoreHeadings counts) <= 15.
Proof.
  unfold scoreHeadings. destruct (_ =? 0); [cbn; lia|].
  destruct (_ =? 1); [cbn; lia|]. destruct (_ =? 0); cbn; lia.
Qed.

Lemma scoreImages_range (images : ImageStats) :
  2 <= points (scoreImages images) <= 10.
Proof.
  unfold scoreImages. destruct (_ =? 0); [cbn; lia|].
  destruct (jsGe _ (jsLiteral 9 10)); [cbn; lia|].
  destruct (jsGe _ (jsLiteral 6 10)); cbn; lia.
Qed.

Lemma scoreCanonical_range (href : jsstring) :
  0 <= points (scoreCanonical href) <= 5.
Proof.
  unfold scoreCanonical. destruct (isEmpty href); [cbn; lia|].
  destruct (negb _); cbn; lia.
Qed.

Lemma scoreRobots_range (robots : jsstring) :
  0 <= points (scoreRobots robots) <= 6.
Proof.
  unfold scoreRobots. destruct (isEmpty robots); [cbn; lia|].
  destruct (_ || _); cbn; lia.
Qed.

Lemma scoreStructuredData_range (jsonld : JsonLdStats) :
  0 <= points (scoreStructuredData jsonld) <= 10.
Proof.
  unfold scoreStructuredData. destruct (_ =? 0); [cbn; lia|].
  destruct (_ && _); cbn; lia.
Qed.

Lemma scoreWordCount_range (words : Z) :
  0 <= points (scoreWordCount words) <= 10.
Proof.
  unfold scoreWordCount. destruct (_ =? 0); [cbn; lia|].
  destruct (300 <=? _); [cbn; lia|]. destruct (150 <=? _); cbn; lia.
Qed.

Lemma rawPoints_range (r : Raw) : 2 <= rawPoints r <= 99.
Proof.
  unfold rawPoints, pointsSum, scoreSignals. cbn [items_title
    items_metaDescription items_metaKeywords items_headings items_images
    items_canonical items_robots items_structuredData items_wordCount].
  pose proof (scoreTitle_range (raw_title r)).
  pose proof (scoreMetaDescription_range (raw_metaDescription r)).
  pose proof (scoreMetaKeywords_range (raw_metaKeywords r)).
  pose proof (scoreHeadings_range (raw_headings r)).
  pose proof (scoreImages_range (raw_images r)).
  pose proof (scoreCanonical_range (raw_canonical r)).
  pose proof (scoreRobots_range (raw_robots r)).
  pose proof (scoreStructuredData_range (raw_jsonld r)).
  pose proof (scoreWordCount_range (raw_wordCount r)).
  lia.
Qed.

Lemma scoreSignals_withinMaxima (r : Raw) : withinMaxima (scoreSignals r).
Proof.
  unfold withinMaxima, scoreSignals. cbn [items_title
    items_metaDescription items_metaKeywords items_headings items_images
    items_canonical items_robots items_structuredData items_wordCount].
  pose proof (scoreImages_range (raw_images r)).
  repeat split;
    try apply scoreTitle_range; try apply scoreMetaDescription_range;
    try apply scoreMetaKeywords_range; try apply scoreHeadings_range;
    try apply scoreCanonical_range; try apply scoreRobots_range;
    try apply scoreStructuredData_range; try apply scoreWordCount_range; lia.
Qed.

(** ** Structured-data extraction *)

Section JsonLd.

Context {JsonValue Exn : Type}.
Variable JSON_parse : jsstring -> completion Exn JsonValue.

(** The loop of [getJsonLdBlocks] ends normally; it appends one value per
    block that is not empty and parses, and adds one to [parseErrors] per
    block that is not empty and does not parse. *)
Lemma forOf_jsonLdStep (nodes : list Element) (parsed : list JsonValue)
  (errors : Z) :
  exists parsed',
    forOf nodes (jsonLdStep JSON_parse) (parsed, errors) =
      Normal (parsed',
              errors +
              Z.of_nat (List.length
                (filter (fun node => negb (parsesBlock JSON_parse node))
                        (nonEmptyBlocks nodes)))) /\
    List.length parsed' =
      (List.length parsed +
       List.length (filter (parsesBlock JSON_parse) (nonEmptyBlocks nodes)))%nat.
Proof.
  revert parsed errors.
  induction nodes as [|node nodes IH]; intros parsed errors.
  - exists parsed. cbn. split; [f_equal; f_equal; lia | lia].
  - cbn [forOf]. unfold jsonLdStep at 1, nonEmptyBlocks. cbn [filter].
    fold (blockText node). fold (nonEmptyBlocks nodes).
    destruct (isEmpty (blockText node)) eqn:He; cbn [negb bind].
    + apply IH.
    + cbn [filter].
      destruct (JSON_parse (blockText node)) as [value|e] eqn:Hp.
      * assert (Hb : parsesBlock JSON_parse node = true)
          by (unfold parsesBlock; now rewrite Hp).
        rewrite Hb. cbn [tryCatch bind negb List.length].
        destruct (IH (parsed ++ [value]) errors) as (parsed' & Hrun & Hlen).
        exists parsed'. split; [exact Hrun|].
        rewrite Hlen, length_app. cbn [List.length]. lia.
      * assert (Hb : parsesBlock JSON_parse node = false)
          by (unfold parsesBlock; now rewrite Hp).
        rewrite Hb. cbn [tryCatch bind negb List.length].
        destruct (IH parsed (errors + 1)) as (parsed' & Hrun & Hlen).
        exists parsed'. split; [|exact Hlen].
        rewrite Hrun. f_equal. f_equal. lia.
Qed.

(** [getJsonLdBlocks] returns: [count] is the number of script elements,
    [parsedCount] and [parseErrors] the numbers of blocks that are not
    empty and parse, or do not. *)
Lemma getJsonLdBlocks_returns (doc : Document) :
  getJsonLdBlocks JSON_parse doc =
  Normal
    {| count := Z.of_nat (List.length (queryJsonLd doc));
       parsedCount :=
         Z.of_nat (List.length
           (filter (parsesBlock JSON_parse) (nonEmptyBlocks (queryJsonLd doc))));
       parseErrors :=
         Z.of_nat (List.length
           (filter (fun node => negb (parsesBlock JSON_parse node))
                   (nonEmptyBlocks (queryJsonLd doc)))) |}.
Proof.
  unfold getJsonLdBlocks.
  destruct (forOf_jsonLdStep (queryJsonLd doc) [] 0) as (parsed & -> & Hlen).
  cbn [bind]. rewrite Hlen. reflexivity.
Qed.

End JsonLd.

(** C3, as the script has it: for every document and every behaviour of
    [JSON.parse] the extractor returns; a block that does not parse adds one
    to [parseErrors] and nothing is thrown; a block whose normalized text is
    empty is neither parsed nor an error but it is still counted in
    [count], the number of script elements; so [parsedCount + parseErrors]
    is the number of blocks that are not empty, which is at most [count]. *)
Theorem getJsonLdBlocks_stats {JsonValue Exn : Type}
  (JSON_parse : jsstring -> completion Exn JsonValue) (doc : Document) :
  let nodes := queryJsonLd doc in
  exists stats,
    getJsonLdBlocks JSON_parse doc = Normal stats /\
    count stats = Z.of_nat (List.length nodes) /\
    parsedCount stats =
      Z.of_nat (List.length
        (filter (parsesBlock JSON_parse) (nonEmptyBlocks nodes))) /\
    parseErrors stats =
      Z.of_nat (List.length
        (filter (fun node => negb (parsesBlock JSON_parse node))
                (nonEmptyBlocks nodes))) /\
    parsedCount stats + parseErrors stats =
      Z.of_nat (List.length (nonEmptyBlocks nodes)) /\
    count stats =
      Z.of_nat (List.length (nonEmptyBlocks nodes)) +
      Z.of_nat (List.length
        (filter (fun node => isEmpty (blockText node)) nodes)) /\
    parsedCount stats + parseErrors stats <= count stats.
Proof.
  cbv zeta. eexists. split; [apply getJsonLdBlocks_returns|].
  cbn [count parsedCount parseErrors].
  pose proof (filter_length (parsesBlock JSON_parse)
                (nonEmptyBlocks (queryJsonLd doc))) as Hsplit.
  assert (Hall :
    (List.length (filter (fun node => isEmpty (blockText node))
                         (queryJsonLd doc)) +
     List.length (nonEmptyBlocks (queryJsonLd doc)))%nat =
    List.length (queryJsonLd doc)) by apply filter_length.
  repeat split; lia.
Qed.

(** C3 as stated fails on a script element that holds white space only:
    its normalized text is empty, yet the page that has it has [count = 1]
    where the page without it has [count = 0], and its structured-data
    score is 5 where the other page scores 0. *)
Lemma emptyBlock_is_counted :
  blockText blankScript = [] /\
  getJsonLdBlocks rejectAll blankDocument = Normal (mkJsonLd 0 0 0) /\
  getJsonLdBlocks rejectAll (withJsonLd blankDocument [blankScript]) =
    Normal (mkJsonLd 1 0 0) /\
  points (scoreStructuredData (mkJsonLd 0 0 0)) = 0 /\
  points (scoreStructuredData (mkJsonLd 1 0 0)) = 5.
Proof. vm_compute. repeat split. Qed.

(** ** The aggregator *)

(** [analyzeSeo] returns a report whose items are the nine scores of its
    raw signals, up to the detail of the headings, and whose total is the
    clamped sum. *)
Lemma analyzeSeo_returns {JsonValue Exn : Type}
  (JSON_parse : jsstring -> completion Exn JsonValue)
  (isLetterOrNumber : N -> bool) (doc : Document) :
  exists payload,
    analyzeSeo JSON_parse isLetterOrNumber doc = Normal payload /\
    score_total payload = clamp (pointsSum (items payload)) 0 100 /\
    pointsSum (items payload) = rawPoints (raw payload).
Proof.
  unfold analyzeSeo. rewrite getJsonLdBlocks_returns. cbn [bind].
  eexists. split; [reflexivity|]. split; reflexivity.
Qed.

(** C1: the nine scores of any extracted signals lie within the maxima of
    the specification, which sum to 99, so that clamping their sum to
    [0, 100] changes nothing; the total of the report is that clamped sum
    and lies in [0, 100]. *)
Theorem analyzeSeo_total_clamped {JsonValue Exn : Type}
  (JSON_parse : jsstring -> completion Exn JsonValue)
  (isLetterOrNumber : N -> bool) (doc : Document) :
  (forall r : Raw,
     withinMaxima (scoreSignals r) /\
     0 <= pointsSum (scoreSignals r) <= 20 + 20 + 3 + 15 + 10 + 5 + 6 + 10 + 10 /\
     clamp (pointsSum (scoreSignals r)) 0 100 = pointsSum (scoreSignals r)) /\
  exists payload,
    analyzeSeo JSON_parse isLetterOrNumber doc = Normal payload /\
    pointsSum (items payload) = pointsSum (scoreSignals (raw payload)) /\
    score_total payload = clamp (pointsSum (items payload)) 0 100 /\
    score_total payload = pointsSum (items payload) /\
    0 <= score_total payload <= 100.
Proof.
  split.
  - intros r. pose proof (rawPoints_range r) as Hr. unfold rawPoints in Hr.
    split; [apply scoreSignals_withinMaxima|].
    split; [lia | apply clamp_inside; lia].
  - destruct (analyzeSeo_returns JSON_parse isLetterOrNumber doc)
      as (payload & Hrun & Htotal & Hsum).
    pose proof (rawPoints_range (raw payload)) as Hr. unfold rawPoints in *.
    exists payload. rewrite Htotal, Hsum.
    rewrite clamp_inside by lia. repeat split; (assumption || lia).
Qed.

(** C10: the images scorer never returns less than 2 points, so the sum
    of the nine scores and the total of every report lie in [2, 99]: the
    totals 0, 1 and 100 are never reported. *)
Theorem analyzeSeo_total_at_least_2 {JsonValue Exn : Type}
  (JSON_parse : jsstring -> completion Exn JsonValue)
  (isLetterOrNumber : N -> bool) (doc : Document) :
  (forall images : ImageStats, 2 <= points (scoreImages images)) /\
  (forall r : Raw, 2 <= pointsSum (scoreSignals r) <= 99) /\
  exists payload,
    analyzeSeo JSON_parse isLetterOrNumber doc = Normal payload /\
    2 <= score_total payload <= 99 /\
    score_total payload <> 0 /\ score_total payload <> 1 /\
    score_total payload <> 100.
Proof.
  split; [intros images; apply scoreImages_range|].
  split; [intros r; apply rawPoints_range|].
  destruct (analyzeSeo_returns JSON_parse isLetterOrNumber doc)
    as (payload & Hrun & Htotal & Hsum).
  pose proof (rawPoints_range (raw payload)) as Hr.
  exists payload. rewrite Htotal, Hsum, clamp_inside by lia.
  repeat split; (assumption || lia).
Qed.

(** * Further properties of the content script *)

(** ** Whitespace normalization *)

Lemma trimStart_snoc (l : jsstring) (c : codeUnit) :
  trimStart (l ++ [c]) =
  match trimStart l with
  | [] => if isSpace c then [] else [c]
  | _ :: _ => trimStart l ++ [c]
  end.
Proof.
  induction l as [|x l IH]; simpl.
  - reflexivity.
  - destruct (isSpace x); [exact IH | reflexivity].
Qed.

(** [trimEnd] from the front: a unit is kept unless it is white space and
    nothing is kept after it. *)
Lemma trimEnd_cons (c : codeUnit) (r : jsstring) :
  trimEnd (c :: r) =
  match trimEnd r with
  | [] => if isSpace c then [] else [c]
  | _ :: _ => c :: trimEnd r
  end.
Proof.
  unfold trimEnd. cbn [rev]. rewrite trimStart_snoc.
  destruct (trimStart (rev r)) as [|x l] eqn:E.
  - destruct (isSpace c); reflexivity.
  - rewrite rev_app_distr. cbn [rev app].
    destruct (rev l ++ [x]) eqn:E'; [|reflexivity].
    apply app_eq_nil in E' as [_ E']. discriminate.
Qed.

Lemma spaced_collapseSpaces (b : bool) (s : jsstring) :
  spaced b (collapseSpaces b s) = true.
Proof.
  revert b. induction s as [|c s IH]; intros b; [reflexivity|].
  cbn [collapseSpaces]. destruct (isSpace c) eqn:Ec.
  - destruct b; [apply IH|]. cbn [spaced].
    change (isSpace 32%N) with true. cbn. apply IH.
  - cbn [spaced]. rewrite Ec. apply IH.
Qed.

Lemma spaced_weaken (b : bool) (s : jsstring) :
  spaced true s = true -> spaced b s = true.
Proof.
  destruct b; [auto|]. destruct s as [|c s]; [reflexivity|].
  cbn [spaced]. destruct (isSpace c); [discriminate | auto].
Qed.

Lemma spaced_trimStart (b : bool) (s : jsstring) :
  spaced b s = true -> spaced true (trimStart s) = true.
Proof.
  revert b. induction s as [|c s IH]; intros b H; [reflexivity|].
  cbn [trimStart]. cbn [spaced] in H. destruct (isSpace c) eqn:Ec.
  - apply andb_true_iff in H as [_ H]. exact (IH true H).
  - cbn [spaced]. rewrite Ec. exact H.
Qed.

Lemma spaced_trimEnd (b : bool) (s : jsstring) :
  spaced b s = true -> spaced b (trimEnd s) = true.
Proof.
  revert b. induction s as [|c s IH]; intros b H; [reflexivity|].
  rewrite trimEnd_cons. cbn [spaced] in H.
  destruct (trimEnd s) as [|x l] eqn:E.
  - destruct (isSpace c) eqn:Ec; [reflexivity|]. cbn [spaced]. now rewrite Ec.
  - cbn [spaced]. destruct (isSpace c).
    + apply andb_true_iff in H as [H1 H2]. rewrite H1. exact (IH true H2).
    + exact (IH false H).
Qed.

Lemma endsWithSpace_trimEnd (s : jsstring) :
  endsWithSpace (trimEnd s) = false.
Proof.
  induction s as [|c s IH]; [reflexivity|].
  rewrite trimEnd_cons. destruct (trimEnd s) as [|x l] eqn:E.
  - destruct (isSpace c) eqn:Ec; [reflexivity|]. cbn. exact Ec.
  - exact IH.
Qed.

Lemma collapseSpaces_spaced (b : bool) (s : jsstring) :
  spaced b s = true -> collapseSpaces b s = s.
Proof.
  revert b. induction s as [|c s IH]; intros b H; [reflexivity|].
  cbn [spaced] in H. cbn [collapseSpaces]. destruct (isSpace c).
  - apply andb_true_iff in H as [H1 H2]. apply andb_true_iff in H1 as [Hb Hc].
    apply negb_true_iff in Hb. apply N.eqb_eq in Hc. subst b c.
    now rewrite (IH true H2).
  - now rewrite (IH false H).
Qed.

Lemma trimStart_spaced (s : jsstring) :
  spaced true s = true -> trimStart s = s.
Proof.
  destruct s as [|c s]; [reflexivity|]. cbn [spaced trimStart].
  destruct (isSpace c); [discriminate | reflexivity].
Qed.

Lemma trimEnd_fixed (s : jsstring) :
  endsWithSpace s = false -> trimEnd s = s.
Proof.
  induction s as [|c s IH]; intros H; [reflexivity|].
  rewrite trimEnd_cons. cbn [endsWithSpace] in H. destruct s as [|x l].
  - cbn. now rewrite H.
  - rewrite (IH H). reflexivity.
Qed.

Lemma isNormalized_normalizeSpace (text : option jsstring) :
  isNormalized (normalizeSpace text) = true.
Proof.
  unfold isNormalized, normalizeSpace, trim.
  rewrite endsWithSpace_trimEnd, andb_true_r.
  apply spaced_trimEnd, (spaced_trimStart false), spaced_collapseSpaces.
Qed.

Lemma normalizeSpace_fixed (s : jsstring) :
  isNormalized s = true -> normalizeSpace (Some s) = s.
Proof.
  unfold isNormalized, normalizeSpace, trim. cbn [orEmpty].
  intros H. apply andb_true_iff in H as [Hs He].
  apply negb_true_iff in He.
  rewrite (collapseSpaces_spaced false s (spaced_weaken false s Hs)).
  rewrite (trimStart_spaced s Hs). now apply trimEnd_fixed.
Qed.

(** X1: [normalizeSpace] returns exactly the strings it leaves alone, the
    normalized ones: applying it to its own result changes nothing, and a
    string is a result of it if and only if every white-space unit of it
    is a single space between two other units. *)
Theorem normalizeSpace_idempotent (text : option jsstring) (s : jsstring) :
  normalizeSpace (Some (normalizeSpace text)) = normalizeSpace text /\
  (normalizeSpace (Some s) = s <-> isNormalized s = true).
Proof.
  split.
  - apply normalizeSpace_fixed, isNormalized_normalizeSpace.
  - split; [|apply normalizeSpace_fixed].
    intros <-. apply isNormalized_normalizeSpace.
Qed.

Lemma spaced_at (b : bool) (s a rest : jsstring) (c : codeUnit) :
  spaced b s = true -> s = a ++ c :: rest -> isSpace c = true ->
  c = 32%N /\
  (a = [] -> b = false) /\
  (forall a' x, a = a' ++ [x] -> isSpace x = false) /\
  (forall y rest', rest = y :: rest' -> isSpace y = false).
Proof.
  revert b a. induction s as [|x s IH]; intros b a Hs Heq Hc.
  - destruct a; discriminate.
  - destruct a as [|x' a]; cbn [app] in Heq; injection Heq as -> ->.
    + cbn [spaced] in Hs. rewrite Hc in Hs.
      apply andb_true_iff in Hs as [H1 H2].
      apply andb_true_iff in H1 as [Hb H32].
      apply negb_true_iff in Hb. apply N.eqb_eq in H32.
      repeat split; auto.
      * intros a' y E. destruct a'; discriminate.
      * intros y rest' ->. cbn [spaced] in H2.
        destruct (isSpace y); [discriminate | reflexivity].
    + assert (Hs' : spaced (isSpace x') (a ++ c :: rest) = true).
      { cbn [spaced] in Hs. destruct (isSpace x');
          [apply andb_true_iff in Hs as [_ Hs]|]; exact Hs. }
      destruct (IH _ a Hs' eq_refl Hc) as (H32 & Hfirst & Hlast & Hnext).
      repeat split; auto; [discriminate|].
      intros a' y E. destruct a' as [|z a'].
      * cbn [app] in E. injection E as <- ->. now apply Hfirst.
      * cbn [app] in E. injection E as <- ->. now apply (Hlast a' y).
Qed.

Lemma endsWithSpace_snoc (a : jsstring) (c : codeUnit) :
  endsWithSpace (a ++ [c]) = isSpace c.
Proof.
  induction a as [|x a IH]; [reflexivity|].
  cbn [app endsWithSpace]. destruct (a ++ [c]) eqn:E; [|exact IH].
  destruct a; discriminate.
Qed.

(** X2: in a result of [normalizeSpace] every white-space unit is the
    space U+0020 and stands between two units that are not white space: no
    white space at either end, no run of two, no tab or line break left. *)
Theorem normalizeSpace_shape (text : option jsstring) (a rest : jsstring)
  (c : codeUnit) :
  normalizeSpace text = a ++ c :: rest -> isSpace c = true ->
  c = 32%N /\
  (exists a' x, a = a' ++ [x] /\ isSpace x = false) /\
  (exists y rest', rest = y :: rest' /\ isSpace y = false).
Proof.
  intros Heq Hc.
  pose proof (isNormalized_normalizeSpace text) as Hn.
  unfold isNormalized in Hn. apply andb_true_iff in Hn as [Hs He].
  apply negb_true_iff in He.
  destruct (spaced_at true _ a rest c Hs Heq Hc)
    as (H32 & Hfirst & Hlast & Hnext).
  split; [exact H32|]. split.
  - destruct a as [|x a] using rev_ind; [now specialize (Hfirst eq_refl)|].
    exists a, x. split; [reflexivity|]. now apply (Hlast a x).
  - destruct rest as [|y rest'].
    + rewrite Heq, endsWithSpace_snoc in He. congruence.
    + exists y, rest'. split; [reflexivity|]. now apply (Hnext y rest').
Qed.

(** X2 at the text "  a   b  ", whose result is "a b". *)
Lemma normalizeSpace_shape_witness :
  32%N = 32%N /\
  (exists a' x, lit "a" = a' ++ [x] /\ isSpace x = false) /\
  (exists y rest', lit "b" = y :: rest' /\ isSpace y = false).
Proof.
  apply (normalizeSpace_shape (Some (lit "  a   b  ")) (lit "a") (lit "b") 32%N);
    reflexivity.
Defined.

Lemma inkOf_collapseSpaces (b : bool) (s : jsstring) :
  inkOf (collapseSpaces b s) = inkOf s.
Proof.
  revert b. induction s as [|c s IH]; intros b; [reflexivity|].
  cbn [collapseSpaces]. unfold inkOf in *. cbn [filter].
  destruct (isSpace c) eqn:Ec; cbn [negb].
  - destruct b; [apply IH|]. cbn [filter].
    change (isSpace 32%N) with true. cbn [negb]. apply IH.
  - cbn [filter]. rewrite Ec. cbn [negb]. f_equal. apply IH.
Qed.

Lemma inkOf_trimStart (s : jsstring) : inkOf (trimStart s) = inkOf s.
Proof.
  induction s as [|c s IH]; [reflexivity|].
  cbn [trimStart]. unfold inkOf in *. cbn [filter].
  destruct (isSpace c) eqn:Ec; cbn [negb]; [exact IH|].
  cbn [filter]. now rewrite Ec.
Qed.

Lemma inkOf_trimEnd (s : jsstring) : inkOf (trimEnd s) = inkOf s.
Proof.
  induction s as [|c s IH]; [reflexivity|].
  rewrite trimEnd_cons. unfold inkOf in *. cbn [filter].
  destruct (trimEnd s) as [|x l] eqn:E.
  - rewrite <- IH. destruct (isSpace c) eqn:Ec; cbn [negb filter];
      [reflexivity|]. now rewrite Ec.
  - cbn [filter] in *. destruct (isSpace c); cbn [negb]; now rewrite IH.
Qed.

Lemma inkOf_normalizeSpace (text : option jsstring) :
  inkOf (normalizeSpace text) = inkOf (orEmpty text).
Proof.
  unfold normalizeSpace, trim.
  now rewrite inkOf_trimEnd, inkOf_trimStart, inkOf_collapseSpaces.
Qed.

(** X3: [normalizeSpace] neither drops, adds nor reorders a unit that is
    not white space, and its result is empty exactly when the text holds
    white space only (or is missing). *)
Theorem normalizeSpace_keeps_ink (text : option jsstring) :
  inkOf (normalizeSpace text) = inkOf (orEmpty text) /\
  (normalizeSpace text = [] <-> forallb isSpace (orEmpty text) = true).
Proof.
  split; [apply inkOf_normalizeSpace|].
  assert (Hink : forall s, inkOf s = [] <-> forallb isSpace s = true).
  { induction s as [|c s IH]; [split; reflexivity|].
    unfold inkOf in *. cbn [filter forallb].
    destruct (isSpace c); cbn [negb andb]; [exact IH|].
    split; discriminate. }
  rewrite <- Hink, <- inkOf_normalizeSpace. split; [intros ->; reflexivity|].
  intros H. pose proof (isNormalized_normalizeSpace text) as Hn.
  destruct (normalizeSpace text) as [|c s]; [reflexivity|].
  unfold isNormalized in Hn. cbn [spaced] in Hn.
  unfold inkOf in H. cbn [filter] in H.
  destruct (isSpace c); [discriminate Hn | discriminate H].
Qed.

(** ** The remaining scorers *)

(** X4: an empty meta description scores 0, bad, badge "Missing"; one of 50
    to 160 code units, both bounds included, scores 20, good, the badge
    giving its length; any other scores 12, warn. *)
Theorem scoreMetaDescription_bands (description : jsstring) :
  let r := scoreMetaDescription description in
  let len := strLength description in
  (description = [] ->
   points r = 0 /\ status r = bad /\ badge r = lit "Missing") /\
  (50 <= len <= 160 ->
   points r = 20 /\ status r = good /\
   badge r = numberToString len ++ lit " chars") /\
  (description <> [] -> len < 50 \/ 160 < len ->
   points r = 12 /\ status r = warn /\
   badge r = numberToString len ++ lit " chars").
Proof.
  cbv zeta. unfold scoreMetaDescription. split; [|split].
  - intros ->. cbn. auto.
  - intros [Hlo Hhi].
    assert (Hne : isEmpty description = false).
    { destruct description; [cbn in Hlo; lia | reflexivity]. }
    apply Z.leb_le in Hlo. apply Z.leb_le in Hhi.
    rewrite Hne, Hlo, Hhi. cbn. auto.
  - intros Hne H. apply isEmpty_false in Hne. rewrite Hne.
    assert (E : (50 <=? strLength description) &&
                (strLength description <=? 160) = false).
    { apply andb_false_iff. rewrite !Z.leb_gt. lia. }
    rewrite E. cbn. auto.
Qed.

(** X4 at descriptions of 0, 58 and 5 units. *)
Lemma scoreMetaDescription_bands_witness :
  (points (scoreMetaDescription []) = 0 /\
   status (scoreMetaDescription []) = bad /\
   badge (scoreMetaDescription []) = lit "Missing") /\
  status (scoreMetaDescription
    (lit "A description that is long enough to be within the range.")) = good /\
  status (scoreMetaDescription (lit "Short")) = warn.
Proof.
  split; [|split].
  - apply (proj1 (scoreMetaDescription_bands [])). reflexivity.
  - apply (proj1 (proj2 (scoreMetaDescription_bands
      (lit "A description that is long enough to be within the range.")))).
    vm_compute. split; discriminate.
  - apply (proj2 (proj2 (scoreMetaDescription_bands (lit "Short")))).
    + discriminate.
    + left. reflexivity.
Defined.

(** X5: no word scores 0, bad; 300 words or more score 10, good; 150 to
    299 words score 6, warn; fewer, down to one, score 2, warn.  The badge
    is the count. *)
Theorem scoreWordCount_bands (words : Z) :
  let r := scoreWordCount words in
  (words = 0 -> points r = 0 /\ status r = bad /\ badge r = lit "0") /\
  (300 <= words -> points r = 10 /\ status r = good) /\
  (150 <= words < 300 -> points r = 6 /\ status r = warn) /\
  (1 <= words < 150 -> points r = 2 /\ status r = warn) /\
  (words <> 0 -> badge r = numberToString words).
Proof.
  cbv zeta. unfold scoreWordCount.
  split; [intros ->; cbn; auto|].
  destruct (Z.eqb_spec words 0) as [E|E];
    [repeat split; intros; lia|].
  destruct (Z.leb_spec 300 words), (Z.leb_spec 150 words);
    cbn; repeat split; intros; (reflexivity || lia).
Qed.

(** X5 at 0, 300, 150 and 149 words. *)
Lemma scoreWordCount_bands_witness :
  points (scoreWordCount 0) = 0 /\ points (scoreWordCount 300) = 10 /\
  points (scoreWordCount 150) = 6 /\ points (scoreWordCount 149) = 2.
Proof.
  split; [|split; [|split]].
  - apply (proj1 (scoreWordCount_bands 0)). reflexivity.
  - apply (proj1 (proj2 (scoreWordCount_bands 300))). lia.
  - apply (proj1 (proj2 (proj2 (scoreWordCount_bands 150)))). lia.
  - apply (proj1 (proj2 (proj2 (proj2 (scoreWordCount_bands 149))))). lia.
Defined.

(** Each scorer gives the status good exactly with its highest score. *)
Ltac good_iff_top :=
  repeat match goal with
         | |- context [if ?b then _ else _] => destruct b
         end;
  cbn [points status]; split; intros H; (reflexivity || discriminate H).

Lemma scoreTitle_good (title : jsstring) :
  status (scoreTitle title) = good <-> points (scoreTitle title) = 20.
Proof. unfold scoreTitle. good_iff_top. Qed.

Lemma scoreMetaDescription_good (description : jsstring) :
  status (scoreMetaDescription description) = good <->
  points (scoreMetaDescription description) = 20.
Proof. unfold scoreMetaDescription. good_iff_top. Qed.

Lemma scoreMetaKeywords_good (keywords : jsstring) :
  status (scoreMetaKeywords keywords) = good <->
  points (scoreMetaKeywords keywords) = 3.
Proof. unfold scoreMetaKeywords. good_iff_top. Qed.

Lemma scoreHeadings_good (counts : HeadingCounts) :
  status (scoreHeadings counts) = good <->
  points (scoreHeadings counts) = 15.
Proof. unfold scoreHeadings. good_iff_top. Qed.

Lemma scoreImages_good (images : ImageStats) :
  status (scoreImages images) = good <-> points (scoreImages images) = 10.
Proof. unfold scoreImages. good_iff_top. Qed.

Lemma scoreCanonical_good (href : jsstring) :
  status (scoreCanonical href) = good <-> points (scoreCanonical href) = 5.
Proof. unfold scoreCanonical. good_iff_top. Qed.

Lemma scoreRobots_good (robots : jsstring) :
  status (scoreRobots robots) = good <-> points (scoreRobots robots) = 6.
Proof. unfold scoreRobots. good_iff_top. Qed.

Lemma scoreStructuredData_good (jsonld : JsonLdStats) :
  status (scoreStructuredData jsonld) = good <->
  points (scoreStructuredData jsonld) = 10.
Proof. unfold scoreStructuredData. good_iff_top. Qed.

Lemma scoreWordCount_good (words : Z) :
  status (scoreWordCount words) = good <-> points (scoreWordCount words) = 10.
Proof. unfold scoreWordCount. good_iff_top. Qed.

Lemma scoreSignals_allGood (r : Raw) :
  pointsSum (scoreSignals r) = 99 <-> allGood (scoreSignals r).
Proof.
  unfold allGood, pointsSum, scoreSignals. cbn [items_title
    items_metaDescription items_metaKeywords items_headings items_images
    items_canonical items_robots items_structuredData items_wordCount].
  rewrite scoreTitle_good, scoreMetaDescription_good, scoreMetaKeywords_good,
    scoreHeadings_good, scoreImages_good, scoreCanonical_good,
    scoreRobots_good, scoreStructuredData_good, scoreWordCount_good.
  pose proof (scoreTitle_range (raw_title r)).
  pose proof (scoreMetaDescription_range (raw_metaDescription r)).
  pose proof (scoreMetaKeywords_range (raw_metaKeywords r)).
  pose proof (scoreHeadings_range (raw_headings r)).
  pose proof (scoreImages_range (raw_images r)).
  pose proof (scoreCanonical_range (raw_canonical r)).
  pose proof (scoreRobots_range (raw_robots r)).
  pose proof (scoreStructuredData_range (raw_jsonld r)).
  pose proof (scoreWordCount_range (raw_wordCount r)).
  lia.
Qed.

(** The items of a report are the nine scores of its raw signals; only the
    detail of the headings is longer. *)
Lemma analyzeSeo_items {JsonValue Exn : Type}
  (JSON_parse : jsstring -> completion Exn JsonValue)
  (isLetterOrNumber : N -> bool) (doc : Document) :
  exists payload,
    analyzeSeo JSON_parse isLetterOrNumber doc = Normal payload /\
    score_total payload = clamp (pointsSum (items payload)) 0 100 /\
    sameVerdicts (items payload) (scoreSignals (raw payload)) /\
    summary payload = buildSummary (items payload) (score_total payload).
Proof.
  unfold analyzeSeo. rewrite getJsonLdBlocks_returns. cbn [bind].
  eexists. split; [reflexivity|].
  unfold sameVerdicts, sameVerdict. cbn. repeat split.
Qed.

(** X6: every scorer gives the status good exactly when it gives its
    highest score, so a report totals 99, the highest total, if and only
    if its nine statuses are good. *)
Theorem analyzeSeo_perfect_iff_all_good {JsonValue Exn : Type}
  (JSON_parse : jsstring -> completion Exn JsonValue)
  (isLetterOrNumber : N -> bool) (doc : Document) :
  (forall r : Raw, pointsSum (scoreSignals r) = 99 <-> allGood (scoreSignals r)) /\
  exists payload,
    analyzeSeo JSON_parse isLetterOrNumber doc = Normal payload /\
    (score_total payload = 99 <-> allGood (items payload)).
Proof.
  split; [apply scoreSignals_allGood|].
  destruct (analyzeSeo_items JSON_parse isLetterOrNumber doc)
    as (payload & Hrun & Htotal & Hsame & _).
  exists payload. split; [exact Hrun|].
  pose proof (rawPoints_range (raw payload)) as Hr. unfold rawPoints in Hr.
  pose proof (scoreSignals_allGood (raw payload)) as Hall.
  unfold sameVerdicts, sameVerdict in Hsame.
  destruct Hsame as ((p1 & s1 & _) & (p2 & s2 & _) & (p3 & s3 & _) &
    (p4 & s4 & _) & (p5 & s5 & _) & (p6 & s6 & _) & (p7 & s7 & _) &
    (p8 & s8 & _) & (p9 & s9 & _)).
  assert (Hsum : pointsSum (items payload) =
                 pointsSum (scoreSignals (raw payload))).
  { unfold pointsSum. lia. }
  rewrite Htotal, Hsum, clamp_inside by lia. rewrite Hall.
  unfold allGood. rewrite s1, s2, s3, s4, s5, s6, s7, s8, s9. reflexivity.
Qed.

(** ** Image statistics *)

Lemma getImageAltStats_unfold (doc : Document) :
  getImageAltStats doc =
  let relevant := filter usableSrc (document_images doc) in
  {| total := Z.of_nat (List.length relevant);
     withAlt := Z.of_nat (List.length (filter hasAltText relevant));
     withoutAlt := Z.of_nat (List.length relevant) -
                   Z.of_nat (List.length (filter hasAltText relevant)) |}.
Proof. reflexivity. Qed.

Lemma getImageAltStats_invariant (doc : Document) :
  let st := getImageAltStats doc in
  0 <= withAlt st <= total st /\
  0 <= withoutAlt st /\
  withAlt st + withoutAlt st = total st /\
  total st <= Z.of_nat (List.length (document_images doc)).
Proof.
  cbv zeta. rewrite getImageAltStats_unfold. cbv zeta.
  cbn [total withAlt withoutAlt].
  pose proof (filter_length_le hasAltText
                (filter usableSrc (document_images doc))) as H1.
  pose proof (filter_length_le usableSrc (document_images doc)) as H2.
  lia.
Qed.

(** X7: the image statistics count the images with a usable source only:
    [withAlt] and [withoutAlt] are not negative and add up to [total],
    which is at most the number of images of the page; and an image
    without a usable source changes none of the three. *)
Theorem getImageAltStats_counts (doc : Document) (before after : list Element)
  (img : Element) :
  let st := getImageAltStats doc in
  (0 <= withAlt st <= total st /\
   0 <= withoutAlt st /\
   withAlt st + withoutAlt st = total st /\
   total st <= Z.of_nat (List.length (document_images doc))) /\
  (usableSrc img = false ->
   getImageAltStats (withImages doc (before ++ img :: after)) =
   getImageAltStats (withImages doc (before ++ after))).
Proof.
  cbv zeta. split; [apply getImageAltStats_invariant|].
  intros Hsrc. rewrite !getImageAltStats_unfold. cbv zeta.
  cbn [withImages document_images].
  rewrite !filter_app. cbn [filter]. rewrite Hsrc. reflexivity.
Qed.

(** X7 at a page with one image that has a source and one that has none. *)
Lemma getImageAltStats_counts_witness :
  getImageAltStats
    (withImages blankDocument
       ([mkElement [(lit "src", lit "a.png")] []] ++
        mkElement [(lit "alt", lit "pixel")] [] :: [])) =
  getImageAltStats
    (withImages blankDocument
       ([mkElement [(lit "src", lit "a.png")] []] ++ [])).
Proof.
  apply (proj2 (getImageAltStats_counts blankDocument
           [mkElement [(lit "src", lit "a.png")] []] []
           (mkElement [(lit "alt", lit "pixel")] []))).
  reflexivity.
Defined.

(** The verdict of [scoreImages] by integer comparisons, for counts that
    fit an array length. *)
Lemma scoreImages_verdict (images : ImageStats) :
  0 <= withAlt images <= total images -> total images < 2 ^ 32 ->
  (points (scoreImages images), status (scoreImages images)) =
  if total images =? 0 then (6, warn)
  else if 9 * total images <=? 10 * withAlt images then (10, good)
  else if 6 * total images <=? 10 * withAlt images then (6, warn)
  else (2, bad).
Proof.
  intros Hw Hlt. unfold scoreImages.
  destruct (Z.eqb_spec (total images) 0) as [E0|E0]; [reflexivity|].
  pose proof (ratio_ge_0_9 (withAlt images) (total images) Hw ltac:(lia))
    as H9.
  pose proof (ratio_ge_0_6 (withAlt images) (total images) Hw ltac:(lia))
    as H6.
  destruct (Z.leb_spec (9 * total images) (10 * withAlt images)) as [L9|L9].
  { rewrite (proj2 H9 L9). reflexivity. }
  destruct (jsGe _ (jsLiteral 9 10));
    [assert (9 * total images <= 10 * withAlt images) by (now apply H9); lia|].
  destruct (Z.leb_spec (6 * total images) (10 * withAlt images)) as [L6|L6].
  { rewrite (proj2 H6 L6). reflexivity. }
  destruct (jsGe _ (jsLiteral 6 10)); [|reflexivity].
  assert (6 * total images <= 10 * withAlt images) by (now apply H6). lia.
Qed.

(** X8: on a page with fewer than 2^32 images the image score is good
    exactly when some image has a usable source and at most one in ten of
    those lacks an alt text, and bad exactly when more than four in ten
    lack it. *)
Theorem scoreImages_of_page (doc : Document) :
  Z.of_nat (List.length (document_images doc)) < 2 ^ 32 ->
  let st := getImageAltStats doc in
  let r := scoreImages st in
  (status r = good <-> total st <> 0 /\ 10 * withoutAlt st <= total st) /\
  (status r = bad <-> total st <> 0 /\ 4 * total st < 10 * withoutAlt st) /\
  (total st = 0 -> points r = 6 /\ status r = warn).
Proof.
  intros Hlen.
  destruct (getImageAltStats_invariant doc) as (Hw & Hwo & Hsum & Htot).
  cbv zeta in *. set (st := getImageAltStats doc) in *.
  pose proof (scoreImages_verdict st Hw ltac:(lia)) as Hv.
  destruct (Z.eqb_spec (total st) 0) as [E0|E0];
    [|destruct (Z.leb_spec (9 * total st) (10 * withAlt st));
      [|destruct (Z.leb_spec (6 * total st) (10 * withAlt st))]];
    injection Hv as Hp Hs; rewrite Hp, Hs;
    (split; [|split]); try split; try (intros [? ?]); intros;
    try split; solve [congruence | lia].
Qed.

(** X8 at a page with a single image, which has a source and an alt
    text. *)
Lemma scoreImages_of_page_witness :
  status (scoreImages (getImageAltStats
    (withImages blankDocument
       [mkElement [(lit "src", lit "a.png"); (lit "alt", lit "A")] []]))) = good.
Proof.
  apply (proj1 (scoreImages_of_page
    (withImages blankDocument
       [mkElement [(lit "src", lit "a.png"); (lit "alt", lit "A")] []])
    ltac:(vm_compute; reflexivity))).
  vm_compute. split; discriminate.
Defined.

(** ** Headings of a page *)

(** X9: the heading score of a page is bad exactly when the page has no
    heading element of any level, good exactly when it has one H1 element,
    and 7, warn when it has headings but no H1 or several. *)
Theorem scoreHeadings_of_page (doc : Document) :
  let r := scoreHeadings (getHeadingsCount doc) in
  (status r = bad <-> headingElements doc = 0%nat) /\
  (status r = good <-> List.length (queryHeadings doc 1) = 1%nat) /\
  (status r = warn <->
   headingElements doc <> 0%nat /\ List.length (queryHeadings doc 1) <> 1%nat) /\
  (status r = warn -> points r = 7).
Proof.
  cbv zeta. unfold scoreHeadings.
  rewrite headings_total, orZero_id. unfold headingElements.
  unfold getHeadingsCount. cbn [h1 h2 h3 h4 h5 h6].
  set (n1 := List.length (queryHeadings doc 1)).
  set (n2 := List.length (queryHeadings doc 2)).
  set (n3 := List.length (queryHeadings doc 3)).
  set (n4 := List.length (queryHeadings doc 4)).
  set (n5 := List.length (queryHeadings doc 5)).
  set (n6 := List.length (queryHeadings doc 6)).
  destruct (Z.eqb_spec (Z.of_nat n1 + Z.of_nat n2 + Z.of_nat n3 +
                        Z.of_nat n4 + Z.of_nat n5 + Z.of_nat n6) 0);
    [|destruct (Z.eqb_spec (Z.of_nat n1) 1);
      [|destruct (Z.eqb_spec (Z.of_nat n1) 0)]];
    cbn [status points];
    (split; [|split; [|split]]); try split; try (intros [? ?]); intros;
    try split; solve [congruence | lia].
Qed.

(** ** Word count *)

Lemma countRuns_bounds {A} (p : A -> bool) (b : bool) (l : list A) :
  0 <= countRuns p b l /\
  2 * countRuns p b l <= Z.of_nat (List.length l) + (if b then 0 else 1).
Proof.
  revert b. induction l as [|x l IH]; intros b.
  - cbn. destruct b; lia.
  - cbn [countRuns List.length]. destruct (p x).
    + destruct (IH true) as [H0 H1]. destruct b; lia.
    + destruct (IH false) as [H0 H1]. destruct b; lia.
Qed.

Lemma countRuns_zero {A} (p : A -> bool) (l : list A) :
  countRuns p false l = 0 <-> forallb (fun x => negb (p x)) l = true.
Proof.
  induction l as [|x l IH]; [split; reflexivity|].
  cbn [countRuns forallb]. destruct (p x); cbn [negb andb].
  - pose proof (countRuns_bounds p true l). split; [lia | discriminate].
  - exact IH.
Qed.

Lemma codePoints_pair (hi lo : codeUnit) (r : jsstring) :
  codePoints (hi :: lo :: r) =
  if ((55296 <=? hi) && (hi <=? 56319) &&
      (56320 <=? lo) && (lo <=? 57343))%N
  then (65536 + (hi - 55296) * 1024 + (lo - 56320))%N :: codePoints r
  else hi :: codePoints (lo :: r).
Proof. reflexivity. Qed.

Lemma codePoints_length (s : jsstring) :
  (List.length (codePoints s) <= List.length s)%nat.
Proof.
  assert (H : forall n s, (List.length s <= n)%nat ->
                          (List.length (codePoints s) <= List.length s)%nat).
  { induction n as [|n IH]; intros t Ht.
    - destruct t; [reflexivity | cbn in Ht; lia].
    - destruct t as [|hi [|lo r]]; [reflexivity | reflexivity |].
      rewrite codePoints_pair. cbn [List.length] in Ht.
      destruct (_ && _).
      + cbn [List.length]. specialize (IH r ltac:(lia)). lia.
      + cbn [List.length]. specialize (IH (lo :: r) ltac:(cbn; lia)).
        cbn [List.length] in IH. lia. }
  apply (H (List.length s)). reflexivity.
Qed.

(** X10: the word count is 0 without a body and never negative; it is 0
    exactly when no code point of the normalized body text is a letter or
    a number, in which case the word score is bad; and a text of [n] code
    units has at most [(n + 1) / 2] words. *)
Theorem getWordCount_bounds (isLetterOrNumber : N -> bool) (doc : Document) :
  let words := getWordCount isLetterOrNumber doc in
  let text := normalizeSpace (Some (orEmpty (bodyText doc))) in
  (bodyText doc = None -> words = 0) /\
  0 <= words /\
  2 * words <= strLength text + 1 /\
  (words = 0 <->
   forallb (fun c => negb (isLetterOrNumber c)) (codePoints text) = true) /\
  (status (scoreWordCount words) = bad <-> words = 0).
Proof.
  cbv zeta. unfold getWordCount.
  split; [intros ->; reflexivity|].
  assert (Hbad : forall w, status (scoreWordCount w) = bad <-> w = 0).
  { intros w. unfold scoreWordCount.
    destruct (Z.eqb_spec w 0); [cbn; tauto|].
    destruct (300 <=? w); [cbn; split; [discriminate | tauto]|].
    destruct (150 <=? w); cbn; split; (discriminate || tauto). }
  destruct (bodyText doc) as [content|]; cbn [orEmpty].
  - set (text := normalizeSpace (Some content)).
    destruct (isEmpty text) eqn:E.
    + apply isEmpty_true in E. rewrite E. cbn. repeat split; auto; lia.
    + pose proof (countRuns_bounds isLetterOrNumber false (codePoints text))
        as [H0 H1].
      pose proof (codePoints_length text) as Hl. unfold strLength.
      split; [exact H0|]. split; [lia|]. split; [apply countRuns_zero|].
      apply Hbad.
  - change (normalizeSpace (Some [])) with (@nil codeUnit). cbn.
    repeat split; auto; lia.
Qed.

(** ** Text signals of a report *)

(** X11: every text signal of a report (title, meta description, meta
    keywords, canonical href, robots directive) is normalized: no white
    space at either end and single spaces inside; so the lengths the title
    and description scorers measure are lengths of normalized text. *)
Theorem analyzeSeo_raw_normalized {JsonValue Exn : Type}
  (JSON_parse : jsstring -> completion Exn JsonValue)
  (isLetterOrNumber : N -> bool) (doc : Document) :
  exists payload,
    analyzeSeo JSON_parse isLetterOrNumber doc = Normal payload /\
    isNormalized (raw_title (raw payload)) = true /\
    isNormalized (raw_metaDescription (raw payload)) = true /\
    isNormalized (raw_metaKeywords (raw payload)) = true /\
    isNormalized (raw_canonical (raw payload)) = true /\
    isNormalized (raw_robots (raw payload)) = true /\
    raw_title (raw payload) = normalizeSpace (Some (document_title doc)).
Proof.
  unfold analyzeSeo. rewrite getJsonLdBlocks_returns. cbn [bind].
  eexists. split; [reflexivity|].
  cbn [raw raw_title raw_metaDescription raw_metaKeywords raw_canonical
       raw_robots].
  unfold getMetaContentByName, getCanonicalHref.
  repeat split; apply isNormalized_normalizeSpace.
Qed.

Lemma getMetaContentByName_missing (doc : Document) (name : jsstring) :
  queryMeta doc name = None \/
  (exists el, queryMeta doc name = Some el /\
              getAttribute el (lit "content") = None) ->
  getMetaContentByName doc name = [].
Proof.
  unfold getMetaContentByName.
  intros [-> | (el & -> & Hc)]; cbn [getAttributeOpt];
    [|rewrite Hc]; reflexivity.
Qed.

(** X12: a page without a meta description, meta keywords, robots meta
    tag or canonical link (or with the tag but without its [content]
    attribute) is reported with empty signals, scored as absent: the
    description 0, bad, "Missing"; the keywords 0, warn, "Not set"; the
    robots directive 6, good, "Not set"; the canonical link 0, warn,
    "Missing". *)
Theorem analyzeSeo_missing_tags {JsonValue Exn : Type}
  (JSON_parse : jsstring -> completion Exn JsonValue)
  (isLetterOrNumber : N -> bool) (doc : Document) :
  exists payload,
    analyzeSeo JSON_parse isLetterOrNumber doc = Normal payload /\
    (queryMeta doc (lit "description") = None ->
     raw_metaDescription (raw payload) = [] /\
     items_metaDescription (items payload) = scoreMetaDescription [] /\
     points (items_metaDescription (items payload)) = 0 /\
     status (items_metaDescription (items payload)) = bad /\
     badge (items_metaDescription (items payload)) = lit "Missing") /\
    (queryMeta doc (lit "keywords") = None ->
     points (items_metaKeywords (items payload)) = 0 /\
     status (items_metaKeywords (items payload)) = warn /\
     badge (items_metaKeywords (items payload)) = lit "Not set") /\
    (queryMeta doc (lit "robots") = None ->
     points (items_robots (items payload)) = 6 /\
     status (items_robots (items payload)) = good /\
     badge (items_robots (items payload)) = lit "Not set") /\
    (queryCanonical doc = None ->
     points (items_canonical (items payload)) = 0 /\
     status (items_canonical (items payload)) = warn /\
     badge (items_canonical (items payload)) = lit "Missing").
Proof.
  unfold analyzeSeo. rewrite getJsonLdBlocks_returns. cbn [bind].
  eexists. split; [reflexivity|].
  cbn [raw items raw_metaDescription items_metaDescription items_metaKeywords
       items_robots items_canonical].
  split; [|split; [|split]].
  - intros H. rewrite (getMetaContentByName_missing doc _ (or_introl H)).
    cbn. repeat split.
  - intros H. rewrite (getMetaContentByName_missing doc _ (or_introl H)).
    cbn. repeat split.
  - intros H. rewrite (getMetaContentByName_missing doc _ (or_introl H)).
    cbn. repeat split.
  - intros H. unfold getCanonicalHref. rewrite H. cbn. repeat split.
Qed.

(** X12 at a page with nothing on it. *)
Lemma analyzeSeo_missing_tags_witness :
  exists payload,
    analyzeSeo rejectAll (fun _ => false) blankDocument = Normal payload /\
    status (items_robots (items payload)) = good /\
    status (items_canonical (items payload)) = warn.
Proof.
  destruct (analyzeSeo_missing_tags rejectAll (fun _ => false) blankDocument)
    as (payload & Hrun & _ & _ & Hrobots & Hcanonical).
  exists payload. split; [exact Hrun|]. split.
  - apply Hrobots. reflexivity.
  - apply Hcanonical. reflexivity.
Defined.

(** ** Structured data of a page *)

(** X13: the structured-data score of a page is 0, warn without a
    structured-data script element; it is 10, good exactly when some block
    is not empty and every block that is not empty parses; in the other
    cases (a block fails to parse, or every block is empty) it is 5, warn,
    badge "Partial". *)
Theorem scoreStructuredData_of_page {JsonValue Exn : Type}
  (JSON_parse : jsstring -> completion Exn JsonValue) (doc : Document) :
  let blocks := nonEmptyBlocks (queryJsonLd doc) in
  exists stats,
    getJsonLdBlocks JSON_parse doc = Normal stats /\
    let r := scoreStructuredData stats in
    (queryJsonLd doc = [] -> points r = 0 /\ status r = warn) /\
    (status r = good <->
     blocks <> [] /\ forallb (parsesBlock JSON_parse) blocks = true) /\
    (status r = good -> points r = 10) /\
    (queryJsonLd doc <> [] -> status r <> good ->
     points r = 5 /\ status r = warn /\ badge r = lit "Partial").
Proof.
  cbv zeta. eexists. split; [apply getJsonLdBlocks_returns|].
  unfold scoreStructuredData. cbn [count parsedCount parseErrors].
  set (blocks := nonEmptyBlocks (queryJsonLd doc)).
  assert (Hok : forall l : list Element,
    (0 <? Z.of_nat (List.length (filter (parsesBlock JSON_parse) l))) &&
    (Z.of_nat (List.length
       (filter (fun node => negb (parsesBlock JSON_parse node)) l)) =? 0)
    = true <-> l <> [] /\ forallb (parsesBlock JSON_parse) l = true).
  { intros l. rewrite andb_true_iff, Z.ltb_lt, Z.eqb_eq.
    induction l as [|x l IH]; cbn [filter forallb List.length].
    - split; [intros [H _]; cbn in H; lia | intros [H _]; congruence].
    - destruct (parsesBlock JSON_parse x); cbn [negb andb List.length].
      + split.
        * intros [_ H]. split; [discriminate|].
          destruct l as [|y l]; [reflexivity|]. apply IH. split; [|exact H].
          destruct (filter (parsesBlock JSON_parse) (y :: l)) eqn:E;
            [|cbn; lia].
          exfalso.
          pose proof (filter_length (parsesBlock JSON_parse) (y :: l)) as Hl.
          rewrite E in Hl. cbn [List.length] in Hl. lia.
        * intros [_ H]. split; [lia|].
          destruct l as [|y l]; [reflexivity|].
          apply IH. split; [discriminate | exact H].
      + split; [intros [_ H]; lia | intros [_ H]; discriminate]. }
  destruct (Z.eqb_spec (Z.of_nat (List.length (queryJsonLd doc))) 0)
    as [E0|E0].
  - assert (Hnil : queryJsonLd doc = [])
      by (destruct (queryJsonLd doc); [reflexivity | cbn in E0; lia]).
    cbn [points status badge]. subst blocks. rewrite Hnil. cbn.
    repeat split; try congruence; try discriminate.
    intros [H _]. congruence.
  - assert (Hne : queryJsonLd doc <> [])
      by (intros H; rewrite H in E0; cbn in E0; lia).
    specialize (Hok blocks).
    destruct (_ && _); cbn [points status badge].
    + repeat split; try congruence; try (now apply Hok).
    + repeat split; try congruence; try discriminate.
      intros H. apply Hok in H. discriminate.
Qed.

(** ** Clamping *)

(** X14: with [lo <= hi], [clamp] returns [n] inside the interval, [lo]
    below it and [hi] above it, is monotone and changes nothing when
    applied twice; with the bounds inverted ([hi < lo]) it returns [lo]
    whatever [n] is. *)
Theorem clamp_cases (n m lo hi : Z) :
  (lo <= hi ->
   (n < lo -> clamp n lo hi = lo) /\
   (lo <= n <= hi -> clamp n lo hi = n) /\
   (hi < n -> clamp n lo hi = hi) /\
   (n <= m -> clamp n lo hi <= clamp m lo hi) /\
   clamp (clamp n lo hi) lo hi = clamp n lo hi) /\
  (hi < lo -> clamp n lo hi = lo).
Proof. unfold clamp. lia. Qed.

(** X14 at the bounds 0 and 100 of [analyzeSeo]. *)
Lemma clamp_cases_witness :
  clamp (-5) 0 100 = 0 /\ clamp 99 0 100 = 99 /\ clamp 120 0 100 = 100.
Proof.
  destruct (proj1 (clamp_cases (-5) 0 0 100) ltac:(lia)) as (H1 & _).
  destruct (proj1 (clamp_cases 99 0 0 100) ltac:(lia)) as (_ & H2 & _).
  destruct (proj1 (clamp_cases 120 0 0 100) ltac:(lia)) as (_ & _ & H3 & _).
  split; [apply H1; lia | split; [apply H2; lia | apply H3; lia]].
Defined.

(** ** The message listener *)

Lemma strEqb_spec (a b : jsstring) : strEqb a b = true <-> a = b.
Proof.
  revert b. induction a as [|x a IH]; intros [|y b]; cbn [strEqb];
    try (split; (discriminate || reflexivity)).
  rewrite andb_true_iff, N.eqb_eq, IH. split.
  - intros [-> ->]. reflexivity.
  - intros H. injection H as -> ->. auto.
Qed.

Lemma strEqb_refl (a : jsstring) : strEqb a a = true.
Proof. now apply strEqb_spec. Qed.

(** X15: the listener answers a message exactly when its type is the
    string "ANALYZE_SEO"; the answer has the type "SEO_ANALYSIS" and
    carries the report of [analyzeSeo] on the page.  To any other message,
    or to none, it sends nothing.  It never throws. *)
Theorem onMessage_answers {JsonValue Exn : Type}
  (JSON_parse : jsstring -> completion Exn JsonValue)
  (isLetterOrNumber : N -> bool) (doc : Document) (message : option Message) :
  let wanted :=
    exists m, message = Some m /\ message_type m = Some (lit "ANALYZE_SEO") in
  (wanted ->
   exists payload,
     analyzeSeo JSON_parse isLetterOrNumber doc = Normal payload /\
     onMessage JSON_parse isLetterOrNumber doc message =
       Normal (Some (mkResponse (lit "SEO_ANALYSIS") payload))) /\
  (~ wanted ->
   onMessage JSON_parse isLetterOrNumber doc message = Normal None).
Proof.
  cbv zeta.
  destruct (analyzeSeo_returns JSON_parse isLetterOrNumber doc)
    as (payload & Hrun & _).
  unfold onMessage. rewrite Hrun. split.
  - intros (m & -> & ->). exists payload. split; [reflexivity|].
    cbn [differsFrom]. rewrite strEqb_refl. reflexivity.
  - intros Hno. destruct message as [[[ty|]]|]; cbn [message_type differsFrom];
      try reflexivity.
    destruct (strEqb ty (lit "ANALYZE_SEO")) eqn:E; [|reflexivity].
    exfalso. apply Hno. apply strEqb_spec in E. subst ty.
    now exists (mkMessage (Some (lit "ANALYZE_SEO"))).
Qed.

(** X15 at the request of the popup, on a page with nothing on it. *)
Lemma onMessage_answers_witness :
  exists payload,
    analyzeSeo rejectAll (fun _ => false) blankDocument = Normal payload /\
    onMessage rejectAll (fun _ => false) blankDocument (Some analyzeRequest) =
      Normal (Some (mkResponse (lit "SEO_ANALYSIS") payload)).
Proof.
  apply (proj1 (onMessage_answers rejectAll (fun _ => false) blankDocument
                  (Some analyzeRequest))).
  exists analyzeRequest. split; reflexivity.
Defined.

(** ** The popup *)

Lemma startsWith_app (a b s : jsstring) :
  startsWith s (a ++ b) = true -> startsWith s a = true.
Proof.
  rewrite !startsWith_spec. intros [rest ->].
  exists (b ++ rest). now rewrite app_assoc.
Qed.

(** X16: no tab URL, an empty one, and the URLs that start with
    "chrome://", "chrome-extension://", "edge://" or "about:" (in lower
    case) are restricted, and no other; in particular a URL that starts
    with "http://" or "https://", case ignored, is never restricted. *)
Theorem isRestrictedUrl_spec (url : option jsstring) (u : jsstring) :
  (isRestrictedUrl url = true <->
   url = None \/ url = Some [] \/
   exists s rest, url = Some (s ++ rest) /\
     (s = lit "chrome://" \/ s = lit "chrome-extension://" \/
      s = lit "edge://" \/ s = lit "about:")) /\
  (testHttpPrefix u = true -> isRestrictedUrl (Some u) = false).
Proof.
  split.
  - destruct url as [v|]; cbn [isRestrictedUrl].
    + rewrite !orb_true_iff, isEmpty_true, !startsWith_spec. split.
      * intros [[[[-> | [rest ->]] | [rest ->]] | [rest ->]] | [rest ->]]; auto;
          right; right; eexists _, rest; split; eauto.
      * intros [H|[H|(s & rest & H & Hs)]]; [discriminate | |].
        { injection H as ->. auto. }
        injection H as ->.
        destruct Hs as [-> | [-> | [-> | ->]]]; eauto 10.
    + split; auto.
  - intros H. cbn [isRestrictedUrl].
    destruct u as [|h [|t1 [|t2 [|p rest]]]]; try discriminate H.
    cbn [testHttpPrefix] in H.
    apply andb_true_iff in H as [H _].
    apply andb_true_iff in H as [H _].
    apply andb_true_iff in H as [H _].
    apply andb_true_iff in H as [H _].
    unfold matchesIgnoreCase in H. apply orb_true_iff in H.
    rewrite !N.eqb_eq in H.
    cbn [isEmpty orb]. rewrite !orb_false_iff. repeat split;
      cbn; destruct H as [-> | ->]; reflexivity.
Qed.

(** X16 at an address in capitals. *)
Lemma isRestrictedUrl_spec_witness :
  isRestrictedUrl (Some (lit "HTTPS://example.com/")) = false.
Proof.
  apply (proj2 (isRestrictedUrl_spec None (lit "HTTPS://example.com/"))).
  reflexivity.
Defined.

Lemma badgeClass_statusString (s : Status) :
  badgeClass (statusString s) = statusString s.
Proof. destruct s; reflexivity. Qed.

Lemma rowOf_parts (label : jsstring) (item : SignalResult) :
  rowLabel (rowOf label item) = label /\
  rowDetail (rowOf label item) = detail item /\
  rowBadge (rowOf label item) = badge item /\
  rowBadgeClass (rowOf label item) =
    lit "badge " ++ statusString (status item).
Proof.
  unfold rowOf, createRow, rowLabel, rowDetail, rowBadge, rowBadgeClass.
  cbn [node_children node_text node_className].
  now rewrite badgeClass_statusString.
Qed.

(** What [render] leaves in the popup. *)
Lemma render_result (toLocaleTimeString : Z -> jsstring)
  (analysis : Payload) (p : Popup) :
  render toLocaleTimeString analysis p =
  {| RESULTS_children :=
       [rowOf (lit "Page Title") (items_title (items analysis));
        rowOf (lit "Meta Description")
              (items_metaDescription (items analysis));
        rowOf (lit "Meta Keywords (optional)")
              (items_metaKeywords (items analysis));
        rowOf (lit "Headings (H1" ++ [8211%N] ++ lit "H6)")
              (items_headings (items analysis));
        rowOf (lit "Image Alt Attributes") (items_images (items analysis));
        rowOf (lit "Canonical Tag") (items_canonical (items analysis));
        rowOf (lit "Robots Meta Tag") (items_robots (items analysis));
        rowOf (lit "Structured Data (JSON-LD)")
              (items_structuredData (items analysis));
        rowOf (lit "Word Count") (items_wordCount (items analysis))];
     ERROR_hidden := true;
     ERROR_textContent := [];
     SCORE_textContent := numberToString (score_total analysis);
     SUMMARY_content := TextContent (summary analysis);
     PAGE_URL_textContent :=
       orElse (Some (page_url analysis)) (lit "(unknown URL)");
     REFRESH_disabled := REFRESH_disabled p;
     TIMESTAMP_textContent :=
       lit "Updated " ++ toLocaleTimeString (generatedAt analysis) |}.
Proof. destruct p. reflexivity. Qed.

(** X17: [render] replaces what the popup showed: whatever was there, it
    leaves nine rows, labelled in the fixed order, each with the detail and
    the badge of its signal and the badge class of its status; it hides the
    error, shows the total and the summary, and touches the Refresh button
    not at all.  Rendering over an earlier report or error gives the same
    popup as rendering over any other. *)
Theorem render_replaces (toLocaleTimeString : Z -> jsstring)
  (analysis : Payload) (p p' : Popup) :
  let q := render toLocaleTimeString analysis p in
  let rows := RESULTS_children q in
  map rowLabel rows =
    [lit "Page Title"; lit "Meta Description";
     lit "Meta Keywords (optional)";
     lit "Headings (H1" ++ [8211%N] ++ lit "H6)";
     lit "Image Alt Attributes"; lit "Canonical Tag"; lit "Robots Meta Tag";
     lit "Structured Data (JSON-LD)"; lit "Word Count"] /\
  map rowDetail rows = map detail (itemList (items analysis)) /\
  map rowBadge rows = map badge (itemList (items analysis)) /\
  map rowBadgeClass rows =
    map (fun it => lit "badge " ++ statusString (status it))
        (itemList (items analysis)) /\
  ERROR_hidden q = true /\ ERROR_textContent q = [] /\
  SCORE_textContent q = numberToString (score_total analysis) /\
  SUMMARY_content q = TextContent (summary analysis) /\
  REFRESH_disabled q = REFRESH_disabled p /\
  (REFRESH_disabled p = REFRESH_disabled p' ->
   render toLocaleTimeString analysis p' = q).
Proof.
  cbv zeta. rewrite !render_result.
  cbn [RESULTS_children ERROR_hidden ERROR_textContent SCORE_textContent
       SUMMARY_content REFRESH_disabled map itemList].
  repeat match goal with
         | |- context [rowLabel (rowOf ?l ?i)] =>
             destruct (rowOf_parts l i) as (-> & -> & -> & ->)
         end.
  repeat split. intros ->. reflexivity.
Qed.

(** X17 at the report of the sample page, over a popup that shows an
    error and over an empty one. *)
Lemma render_replaces_witness :
  render (fun _ => []) samplePayload
         (mkPopup [Div [] [] []] false (lit "old") [] (TextContent []) []
                  false []) =
  render (fun _ => []) samplePayload
         (mkPopup [] true [] [] (TextContent []) [] false []).
Proof.
  apply (proj2 (proj2 (proj2 (proj2 (proj2 (proj2 (proj2 (proj2 (proj2
    (render_replaces (fun _ => []) samplePayload
       (mkPopup [] true [] [] (TextContent []) [] false [])
       (mkPopup [Div [] [] []] false (lit "old") [] (TextContent []) []
                false []))))))))))).
  reflexivity.
Defined.

(** The runs of [analyze], by what the browser answers. *)
Ltac run_analyze :=
  unfold analyze, getActiveTab, sendMessage;
  unfold andThen, assign, tryCatchAction, tryFinally, await, done, throw;
  cbn [popup sent fst snd hd_error urlOf].


(** X19: [analyze] sends at most one message: the request
    [{type: "ANALYZE_SEO"}], to the first tab the query returns, and only
    when that tab has a URL that is not restricted.  When the query
    rejects, returns no tab, or the URL is missing or restricted, nothing
    is sent. *)
Theorem analyze_requests {Exn : Type} (toLocaleTimeString : Z -> jsstring)
  (browser : Browser Exn) (w0 : World) :
  let out := analyze toLocaleTimeString browser w0 in
  sent (snd out) = sent w0 ++ requestsOf browser /\
  (List.length (requestsOf browser) <= 1)%nat /\
  (forall tabId message, In (tabId, message) (requestsOf browser) ->
     message = analyzeRequest /\
     exists t rest,
       tabs_query browser = Normal (t :: rest) /\ tabId = tab_id t /\
       exists url, tab_url t = Some url /\ isRestrictedUrl (Some url) = false).
Proof.
  cbv zeta. split; [|split].
  - destruct w0 as [[rows0 eh0 et0 sc0 su0 pu0 rd0 ts0] sent0].
    run_analyze. unfold requestsOf.
    destruct (tabs_query browser) as [[|t rest]|e];
      cbn [popup sent fst snd hd_error urlOf isRestrictedUrl];
      try (now rewrite app_nil_r).
    destruct (isRestrictedUrl (tab_url t)); cbn [popup sent fst snd];
      [now rewrite app_nil_r|].
    destruct (tabs_sendMessage browser (tab_id t) analyzeRequest)
      as [[a|]|e]; cbn [popup sent fst snd]; try reflexivity.
    destruct (strEqb (response_type a) (lit "SEO_ANALYSIS"));
      reflexivity.
  - unfold requestsOf. destruct (tabs_query browser) as [[|t rest]|e];
      cbn; try lia. destruct (isRestrictedUrl (tab_url t)); cbn; lia.
  - intros tabId message. unfold requestsOf.
    destruct (tabs_query browser) as [[|t rest]|e]; try (intros []).
    destruct (isRestrictedUrl (tab_url t)) eqn:Hr; [intros []|].
    intros [H|[]]. injection H as <- <-. split; [reflexivity|].
    exists t, rest. repeat split.
    destruct (tab_url t) as [url|]; [|discriminate Hr].
    exists url. auto.
Qed.

(** X20: popup and content script together.  When the active tab runs the
    content script on a page and its URL is not restricted, [analyze] sends
    the one request, the listener's answer passes the popup's check, and
    the popup ends showing the report of [analyzeSeo] on that page: its
    total, between 2 and 99, its summary and its nine rows, with the error
    hidden and the Refresh button enabled. *)
Theorem analyze_connected {JsonValue Exn : Type}
  (JSON_parse : jsstring -> completion Exn JsonValue)
  (isLetterOrNumber : N -> bool) (toLocaleTimeString : Z -> jsstring)
  (doc : Document) (tabId : Z) (url : jsstring) (w0 : World) :
  isRestrictedUrl (Some url) = false ->
  let browser :=
    connectedBrowser JSON_parse isLetterOrNumber doc tabId url in
  let out := analyze toLocaleTimeString browser w0 in
  exists payload,
    analyzeSeo JSON_parse isLetterOrNumber doc = Normal payload /\
    fst out = Normal tt /\
    sent (snd out) = sent w0 ++ [(tabId, analyzeRequest)] /\
    popup (snd out) =
      setREFRESH false (render toLocaleTimeString payload (popup w0)) /\
    SCORE_textContent (popup (snd out)) =
      numberToString (score_total payload) /\
    2 <= score_total payload <= 99 /\
    SUMMARY_content (popup (snd out)) = TextContent (summary payload) /\
    ERROR_hidden (popup (snd out)) = true /\
    REFRESH_disabled (popup (snd out)) = false.
Proof.
  intros Hr. cbv zeta.
  destruct (analyzeSeo_returns JSON_parse isLetterOrNumber doc)
    as (payload & Hrun & Htotal & Hsum).
  pose proof (rawPoints_range (raw payload)) as Hrange.
  exists payload. split; [exact Hrun|].
  assert (Hscore : 2 <= score_total payload <= 99).
  { rewrite Htotal, Hsum, clamp_inside by lia. exact Hrange. }
  destruct w0 as [[rows0 eh0 et0 sc0 su0 pu0 rd0 ts0] sent0].
  run_analyze. unfold connectedBrowser.
  cbn [tabs_query tabs_sendMessage hd_error urlOf tab_url tab_id
       popup sent fst snd].
  rewrite Hr. cbn [popup sent fst snd].
  unfold onMessage, analyzeRequest. cbn [message_type differsFrom].
  rewrite strEqb_refl. cbn [negb]. rewrite Hrun. cbn [bind].
  cbn [response_type response_payload popup sent fst snd].
  rewrite strEqb_refl. cbn [negb popup sent fst snd].
  repeat split; auto; lia.
Qed.

(** X20 at a page with nothing on it, shown at an https address. *)
Lemma analyze_connected_witness :
  exists payload,
    analyzeSeo rejectAll (fun _ => false) blankDocument = Normal payload /\
    SCORE_textContent
      (popup (snd (analyze (fun _ => [])
         (connectedBrowser rejectAll (fun _ => false) blankDocument 7
            (lit "https://example.com/"))
         (mkWorld (mkPopup [] true [] [] (TextContent []) [] false []) [])))) =
      numberToString (score_total payload).
Proof.
  destruct (analyze_connected rejectAll (fun _ => false) (fun _ => [])
              blankDocument 7 (lit "https://example.com/")
              (mkWorld (mkPopup [] true [] [] (TextContent []) [] false []) [])
              eq_refl)
    as (payload & Hrun & _ & _ & _ & Hscore & _).
  exists payload. split; [exact Hrun | exact Hscore].
Defined.

(** ** Statuses *)

Ltac status_cases :=
  repeat match goal with
         | |- context [if ?b then _ else _] => destruct b
         end;
  cbn [points status]; repeat split; intros; solve [congruence | lia].

(** X21: the optional signals are never reported bad (meta keywords,
    canonical link, structured data), the robots directive is never
    reported warn, and whenever a scorer reports bad it gives at most 2
    points; only the image scorer gives any. *)
Theorem status_policy (r : Raw) :
  status (scoreMetaKeywords (raw_metaKeywords r)) <> bad /\
  status (scoreCanonical (raw_canonical r)) <> bad /\
  status (scoreStructuredData (raw_jsonld r)) <> bad /\
  status (scoreRobots (raw_robots r)) <> warn /\
  (status (scoreTitle (raw_title r)) = bad ->
   points (scoreTitle (raw_title r)) = 0) /\
  (status (scoreMetaDescription (raw_metaDescription r)) = bad ->
   points (scoreMetaDescription (raw_metaDescription r)) = 0) /\
  (status (scoreHeadings (raw_headings r)) = bad ->
   points (scoreHeadings (raw_headings r)) = 0) /\
  (status (scoreImages (raw_images r)) = bad ->
   points (scoreImages (raw_images r)) = 2) /\
  (status (scoreRobots (raw_robots r)) = bad ->
   points (scoreRobots (raw_robots r)) = 0) /\
  (status (scoreWordCount (raw_wordCount r)) = bad ->
   points (scoreWordCount (raw_wordCount r)) = 0).
Proof.
  split; [unfold scoreMetaKeywords; status_cases|].
  split; [unfold scoreCanonical; status_cases|].
  split; [unfold scoreStructuredData; status_cases|].
  split; [unfold scoreRobots; status_cases|].
  split; [unfold scoreTitle; status_cases|].
  split; [unfold scoreMetaDescription; status_cases|].
  split; [unfold scoreHeadings; status_cases|].
  split; [unfold scoreImages; status_cases|].
  split; [unfold scoreRobots; status_cases|].
  unfold scoreWordCount; status_cases.
Qed.
